(** * ClaraverseVoiceLAB: chunked voice conversion and model lifecycle

    A shallow embedding of the audio helpers, the video reconciliation
    step, the model lifecycle and the voice-sample validation of
    [src/backend/main.py] (and of the two helpers [src/app.py] duplicates),
    with the properties the specification states about them.

    Python values are modelled as the code has them: [int] as [Z], [float]
    (and the durations and time stamps computed in it) as the IEEE 754
    binary64 numbers of [PrimFloat], one-dimensional numpy arrays as lists
    of samples, exceptions as the [Raise] results of a small error monad.
    Calls into librosa, torch, moviepy and the ChatterBox models are
    parameters of the sections that use them. *)

From Stdlib Require Import String Ascii DecimalString.
From Stdlib Require Import ZArith List Bool Floats Lia.
Import ListNotations.
Set Warnings "-inexact-float".

Local Open Scope Z_scope.

(** * Part I: the program *)

(** ** Python prelude *)

Module Py.

(** The exceptions the modelled code raises or catches.  [LibraryError]
    stands for whatever a call into librosa, torch, moviepy or a model
    raises; [HTTPException] is FastAPI's, with its status code and detail. *)
Inductive exn : Type :=
| ValueError (msg : string)
| ZeroDivisionError
| OverflowError (msg : string)
| TypeError (msg : string)
| LibraryError (msg : string)
| HTTPException (status_code : Z) (detail : string).

(** A computation returns a value or raises. *)
Inductive result (A : Type) : Type :=
| Ok (a : A)
| Raise (e : exn).
Arguments Ok {A} a.
Arguments Raise {A} e.

Definition bind {A B : Type} (m : result A) (k : A -> result B) : result B :=
  match m with
  | Ok a => k a
  | Raise e => Raise e
  end.

(** [try: body / except Exception as e: handler e]. *)
Definition try_except {A : Type} (body : result A) (handler : exn -> result A)
  : result A :=
  match body with
  | Ok a => Ok a
  | Raise e => handler e
  end.

(** [except HTTPException: raise / except Exception as e: handler e]. *)
Definition is_http (e : exn) : bool :=
  match e with
  | HTTPException _ _ => true
  | _ => false
  end.

(** [len(range(lo, hi, step))], as CPython computes it. *)
Definition range_len (lo hi step : Z) : Z :=
  if (0 <? step) && (lo <? hi) then 1 + (hi - 1 - lo) / step
  else if (step <? 0) && (hi <? lo) then 1 + (lo - 1 - hi) / (- step)
  else 0.

(** [range(lo, hi, step)]; a zero step raises [ValueError]. *)
Definition range (lo hi step : Z) : result (list Z) :=
  if step =? 0 then Raise (ValueError "range() arg 3 must not be zero")
  else Ok (map (fun k => lo + Z.of_nat k * step)
               (seq 0 (Z.to_nat (range_len lo hi step)))).

(** A slice bound is taken from the end when negative and clamped to the
    sequence. *)
Definition clamp_index (n i : Z) : Z :=
  if i <? 0 then Z.max 0 (i + n) else Z.min i n.

(** [l[i:j]]. *)
Definition slice {A : Type} (l : list A) (i j : Z) : list A :=
  let n := Z.of_nat (length l) in
  let a := clamp_index n i in
  let b := clamp_index n j in
  firstn (Z.to_nat (b - a)) (skipn (Z.to_nat a) l).

(** [len(l)]. *)
Definition len {A : Type} (l : list A) : Z := Z.of_nat (length l).

(** The float an [int] stands for where Python mixes the two (exact for
    the magnitudes below [2^53] that the modelled code uses). *)
Definition float_of_int (z : Z) : float :=
  if z <? 0 then PrimFloat.opp (of_uint63 (Uint63.of_Z (- z)))
  else of_uint63 (Uint63.of_Z z).

(** [a / b] on two [int]s: a zero divisor raises, and the quotient is
    always a finite number (CPython raises [OverflowError] rather than
    return an infinity or a NaN). *)
Definition truediv (a b : Z) : result float :=
  if b =? 0 then Raise ZeroDivisionError
  else
    let q := PrimFloat.div (float_of_int a) (float_of_int b) in
    if is_finite q then Ok q
    else Raise (OverflowError "integer division result too large for a float").

End Py.

Import Py.

Declare Scope py_scope.
Notation "x <- m ;; k" := (bind m (fun x => k))
  (at level 61, m at next level, right associativity) : py_scope.
Notation "' pat <- m ;; k" := (bind m (fun x => match x with pat => k end))
  (at level 61, pat pattern, m at next level, right associativity) : py_scope.
Local Open Scope py_scope.

(** ** Samples *)

(** A sample is a float; an array is the list of its samples.  (numpy
    holds the samples in single precision; the modelled code compares,
    copies and clips them, which does not depend on the precision.) *)
Definition sample : Type := float.
Definition ndarray : Type := list sample.

(** [np.zeros_like(a)]. *)
Definition zeros_like (a : ndarray) : ndarray := repeat 0%float (length a).

(** [np.concatenate(arrays)] of one-dimensional arrays. *)
Definition np_concatenate (arrays : list ndarray) : ndarray := concat arrays.

(** ** The chunk splitter *)

Module Splitter.
Section WithDecoder.

(** [librosa.load(path, sr=...)]: the decoded mono signal and its sample
    rate, or the exception of a file that cannot be decoded. *)
Variable librosa_load : string -> option Z -> result (ndarray * Z).

(** [main.py], lines 339-357; [app.py], lines 156-174 holds the same body
    (it reports the error with [st.error] instead of [print]). *)
Definition split_audio_into_chunks
  (audio_path : string) (chunk_duration_seconds sample_rate : Z)
  : result (list ndarray * Z) :=
  try_except
    ('(audio, sr) <- librosa_load audio_path (Some sample_rate) ;;
     let chunk_size := chunk_duration_seconds * sample_rate in
     starts <- range 0 (len audio) chunk_size ;;
     let chunks := map (fun i => slice audio i (i + chunk_size)) starts in
     Ok (chunks, sr))
    (fun _ => Ok ([], sample_rate)).

End WithDecoder.
End Splitter.

(** The windows the loop cuts, by their position. *)
Definition windows (audio : ndarray) (chunk_size : Z) : list ndarray :=
  map (fun k => firstn (Z.to_nat chunk_size) (skipn (k * Z.to_nat chunk_size) audio))
      (seq 0 (Z.to_nat (range_len 0 (len audio) chunk_size))).

(** ** The audio effects post-processor *)

Module Effects.

Local Open Scope float_scope.

(** Python's [a != b] on floats. *)
Definition float_ne (a b : float) : bool := negb (a =? b).

(** [np.maximum] and [np.minimum] on two numbers: a NaN operand is the
    result. *)
Definition np_maximum (x y : float) : float :=
  if is_nan x then x else if is_nan y then y else if x <? y then y else x.

Definition np_minimum (x y : float) : float :=
  if is_nan x then x else if is_nan y then y else if y <? x then y else x.

(** [np.clip(x, lo, hi)], which is [np.minimum(np.maximum(x, lo), hi)]. *)
Definition clip1 (lo hi x : float) : float := np_minimum (np_maximum x lo) hi.

Definition np_clip (a : ndarray) (lo hi : float) : ndarray := map (clip1 lo hi) a.

(** [a * factor], sample by sample.  numpy rounds the product to the
    array's own precision; no property below depends on its value. *)
Definition np_scale (a : ndarray) (factor : float) : ndarray :=
  map (fun x => x * factor) a.

Section WithLibrosa.

(** [librosa.effects.pitch_shift(y, sr=, n_steps=)] and
    [librosa.effects.time_stretch(y, rate=)]: a new signal, or an exception. *)
Variable pitch_shift_fn : ndarray -> Z -> float -> result ndarray.
Variable time_stretch_fn : ndarray -> float -> result ndarray.

(** [main.py], lines 359-379.  The handler returns the local [audio_array]
    as the stages that ran left it. *)
Definition apply_audio_effects
  (audio_array : ndarray) (sample_rate : Z)
  (pitch_shift speed_factor volume_factor : float) : ndarray :=
  match (if float_ne pitch_shift 0.0
         then pitch_shift_fn audio_array sample_rate pitch_shift
         else Ok audio_array) with
  | Raise _ => audio_array
  | Ok audio_array1 =>
    match (if float_ne speed_factor 1.0
           then time_stretch_fn audio_array1 speed_factor
           else Ok audio_array1) with
    | Raise _ => audio_array1
    | Ok audio_array2 =>
      if float_ne volume_factor 1.0
      then np_clip (np_scale audio_array2 volume_factor) (-1.0) 1.0
      else audio_array2
    end
  end.

End WithLibrosa.

(** A sample within [[-1.0, 1.0]]. *)
Definition in_unit_range (x : float) : bool := (-1.0 <=? x) && (x <=? 1.0).

End Effects.

(** ** The conversion worker and the chunk combiner *)

(** A [for] loop over a list whose body updates a local state and may
    raise: the first exception that escapes a body ends the loop. *)
Fixpoint for_each {A S : Type} (body : S -> A -> result S) (l : list A) (s : S)
  : result S :=
  match l with
  | [] => Ok s
  | x :: l' => s' <- body s x ;; for_each body l' s'
  end.

(** A wav file, by what [ta.save] wrote into it. *)
Record wav_file : Type := { wav_samples : ndarray; wav_rate : Z }.

(** What the code sees of a loaded voice-conversion model: [generate],
    which reads the wav file at [audio] and returns the converted signal or
    raises, and the model's output sample rate [sr]. *)
Record VCModel : Type := {
  generate : wav_file -> option string -> result ndarray;
  vc_sr : Z
}.

Module Main.
Section WithIO.

Variable pitch_shift_fn : ndarray -> Z -> float -> result ndarray.
Variable time_stretch_fn : ndarray -> float -> result ndarray.

(** [tempfile.NamedTemporaryFile] followed by [ta.save] of the chunk: the
    file written, or the exception of either call. *)
Variable save_temp_wav : ndarray -> Z -> result wav_file.

(** The [try] body of the loop of [process_audio_chunks], [main.py], lines
    388-408.  [safe_file_cleanup] returns a flag that the loop ignores. *)
Definition convert_chunk
  (vc_model : VCModel) (sample_rate : Z) (target_voice_path : option string)
  (pitch_shift speed_factor volume_factor : float) (chunk : ndarray)
  : result ndarray :=
  tmp_file <- save_temp_wav chunk sample_rate ;;
  converted_audio <- generate vc_model tmp_file target_voice_path ;;
  Ok (Effects.apply_audio_effects pitch_shift_fn time_stretch_fn
        converted_audio sample_rate pitch_shift speed_factor volume_factor).

(** The loop of [process_audio_chunks], lines 384-415: [converted_chunks]
    after the last chunk. *)
Definition convert_chunks
  (vc_model : VCModel) (chunks : list ndarray) (sample_rate : Z)
  (target_voice_path : option string)
  (pitch_shift speed_factor volume_factor : float)
  : result (list ndarray) :=
  for_each
    (fun converted_chunks chunk =>
       try_except
         (converted_audio <-
            convert_chunk vc_model sample_rate target_voice_path
              pitch_shift speed_factor volume_factor chunk ;;
          Ok (converted_chunks ++ [converted_audio]))
         (fun _ =>
            let silence := zeros_like chunk in
            Ok (converted_chunks ++ [silence])))
    chunks [].

(** [main.py], lines 381-422: the combined signal (the one row of the
    tensor returned), or [None] when there was no chunk. *)
Definition process_audio_chunks
  (vc_model : VCModel) (chunks : list ndarray) (sample_rate : Z)
  (target_voice_path : option string)
  (pitch_shift speed_factor volume_factor : float)
  : result (option ndarray) :=
  converted_chunks <-
    convert_chunks vc_model chunks sample_rate target_voice_path
      pitch_shift speed_factor volume_factor ;;
  match converted_chunks with
  | [] => Ok None
  | _ :: _ => Ok (Some (np_concatenate converted_chunks))
  end.

End WithIO.
End Main.

Module App.
Section WithIO.

Variable save_temp_wav : ndarray -> Z -> result wav_file.

(** The [try] body of the loop of [app.py], lines 183-205: the Streamlit
    copy applies no effects. *)
Definition convert_chunk
  (vc_model : VCModel) (sample_rate : Z) (target_voice_path : option string)
  (chunk : ndarray) : result ndarray :=
  tmp_file <- save_temp_wav chunk sample_rate ;;
  converted_audio <- generate vc_model tmp_file target_voice_path ;;
  Ok converted_audio.

Definition convert_chunks
  (vc_model : VCModel) (chunks : list ndarray) (sample_rate : Z)
  (target_voice_path : option string) : result (list ndarray) :=
  for_each
    (fun converted_chunks chunk =>
       try_except
         (converted_audio <-
            convert_chunk vc_model sample_rate target_voice_path chunk ;;
          Ok (converted_chunks ++ [converted_audio]))
         (fun _ =>
            let silence := zeros_like chunk in
            Ok (converted_chunks ++ [silence])))
    chunks [].

(** [app.py], lines 176-225. *)
Definition process_audio_chunks
  (vc_model : VCModel) (chunks : list ndarray) (sample_rate : Z)
  (target_voice_path : option string) : result (option ndarray) :=
  converted_chunks <-
    convert_chunks vc_model chunks sample_rate target_voice_path ;;
  match converted_chunks with
  | [] => Ok None
  | _ :: _ => Ok (Some (np_concatenate converted_chunks))
  end.

End WithIO.
End App.

(** What the loop appends for a chunk: the converted signal, or silence of
    the chunk's length when the conversion raised. *)
Definition chunk_outcome (convert : ndarray -> result ndarray) (chunk : ndarray)
  : ndarray :=
  match convert chunk with
  | Ok converted_audio => converted_audio
  | Raise _ => zeros_like chunk
  end.

(** The conversion proper, common to both copies: the chunk written to a
    temporary wav file and handed to the model. *)
Definition save_and_generate
  (save_temp_wav : ndarray -> Z -> result wav_file)
  (vc_model : VCModel) (sample_rate : Z) (target_voice_path : option string)
  (chunk : ndarray) : result ndarray :=
  tmp_file <- save_temp_wav chunk sample_rate ;;
  generate vc_model tmp_file target_voice_path.

(** The chunked branch of the conversion endpoints, [main.py], lines
    997-1015 and 1301-1323, from the split to the combined signal.  (The
    endpoint's outer handler wraps what the branch raises in a 500 of its
    own.) *)
Definition convert_in_chunks
  (librosa_load : string -> option Z -> result (ndarray * Z))
  (process : list ndarray -> Z -> result (option ndarray))
  (audio_path : string) (chunk_duration : Z) : result ndarray :=
  '(chunks, sample_rate) <-
    Splitter.split_audio_into_chunks librosa_load audio_path chunk_duration 16000 ;;
  match chunks with
  | _ :: _ =>
    wav <- process chunks sample_rate ;;
    match wav with
    | None => Raise (HTTPException 500 "Chunked processing failed")
    | Some wav => Ok wav
    end
  | [] => Raise (HTTPException 500 "Failed to split audio into chunks")
  end.

(** ** The video audio reconciler *)

Module Video.

Local Open Scope float_scope.

(** The moviepy audio clips the step builds, by how they were made:
    [AudioFileClip(path)] (with the duration read from the file),
    [clip.subclipped(start_time, end_time)],
    [AudioClip(lambda t: [0, 0], duration=d)] and
    [concatenate_audioclips(clips)]. *)
#[warnings="-register-all"]
Inductive AudioClip : Type :=
| AudioFileClip (duration : float)
| Subclipped (clip : AudioClip) (start_time end_time : float)
| SilenceClip (duration : float)
| Concatenated (clips : list AudioClip).

(** [clip.duration], as moviepy sets it: a subclip lasts
    [end_time - start_time]; a concatenation ends at the last of the running
    sums [np.cumsum([0, d1, d2, ...])]. *)
Fixpoint clip_duration (clip : AudioClip) : float :=
  match clip with
  | AudioFileClip d => d
  | Subclipped _ start_time end_time => end_time - start_time
  | SilenceClip d => d
  | Concatenated clips =>
    fold_left (fun total c => total + clip_duration c) clips 0
  end.

(** [clip.subclipped(start_time, end_time)]: a negative time counts back
    from the end of the clip. *)
Definition from_end (clip : AudioClip) (t : float) : float :=
  if t <? 0 then clip_duration clip + t else t.

Definition subclipped (clip : AudioClip) (start_time end_time : float) : AudioClip :=
  Subclipped clip (from_end clip start_time) (from_end clip end_time).

Definition concatenate_audioclips (clips : list AudioClip) : AudioClip :=
  Concatenated clips.

(** The step "Ensure audio matches video duration" of
    [video_voice_conversion], [main.py], lines 1349-1356: the audio clip
    that line 1359 attaches to the video.  [video_duration] is the
    duration moviepy reported for the video, or the 60 seconds estimated
    for a WebM file without one; it is [None] when a file of another
    format reports none, and the first comparison then raises [TypeError]. *)
Definition match_video_duration
  (converted_audio_clip : AudioClip) (video_duration : option float)
  : result AudioClip :=
  match video_duration with
  | None =>
    Raise (TypeError "'>' not supported between instances of 'float' and 'NoneType'")
  | Some video_duration =>
    if video_duration <? clip_duration converted_audio_clip then
      Ok (subclipped converted_audio_clip 0 video_duration)
    else if clip_duration converted_audio_clip <? video_duration then
      let silence_duration := video_duration - clip_duration converted_audio_clip in
      let silence_clip := SilenceClip silence_duration in
      Ok (concatenate_audioclips [converted_audio_clip; silence_clip])
    else Ok converted_audio_clip
  end.

End Video.

(** ** The model lifecycle *)

Module Models.

Local Open Scope float_scope.

(** A loaded model object, by its identity. *)
Definition handle : Type := nat.

(** The module-level globals of [main.py], lines 56-60, with what the
    process has printed and allocated so far: [loads_started] lists the
    devices of the "Loading models on ..." lines, one per load operation;
    [next_handle] names the next model object [from_pretrained] creates. *)
Record state : Type := {
  tts_model : option handle;
  vc_model : option handle;
  current_device : string;
  model_load_time : option float;
  loads_started : list string;
  next_handle : nat
}.

(** The globals as the module initialises them. *)
Definition initial_state : state := {|
  tts_model := None;
  vc_model := None;
  current_device := "cpu";
  model_load_time := None;
  loads_started := [];
  next_handle := 0
|}.

(** What the process finds installed: whether the chatterbox package
    imported, the device torch prefers, and whether each model's
    [from_pretrained] succeeds on a device. *)
Record environment : Type := {
  CHATTERBOX_AVAILABLE : bool;
  get_default_device : string;
  tts_from_pretrained_ok : string -> bool;
  vc_from_pretrained_ok : string -> bool
}.

Definition is_none {A : Type} (o : option A) : bool :=
  match o with
  | None => true
  | Some _ => false
  end.

Definition set_tts_model (st : state) (m : option handle) : state :=
  {| tts_model := m; vc_model := vc_model st;
     current_device := current_device st;
     model_load_time := model_load_time st;
     loads_started := loads_started st; next_handle := next_handle st |}.

Definition set_vc_model (st : state) (m : option handle) : state :=
  {| tts_model := tts_model st; vc_model := m;
     current_device := current_device st;
     model_load_time := model_load_time st;
     loads_started := loads_started st; next_handle := next_handle st |}.

Definition set_current_device (st : state) (d : string) : state :=
  {| tts_model := tts_model st; vc_model := vc_model st;
     current_device := d;
     model_load_time := model_load_time st;
     loads_started := loads_started st; next_handle := next_handle st |}.

Definition set_model_load_time (st : state) (t : option float) : state :=
  {| tts_model := tts_model st; vc_model := vc_model st;
     current_device := current_device st;
     model_load_time := t;
     loads_started := loads_started st; next_handle := next_handle st |}.

(** [print(f"Loading models on {device}...")]. *)
Definition print_loading (st : state) (device : string) : state :=
  {| tts_model := tts_model st; vc_model := vc_model st;
     current_device := current_device st;
     model_load_time := model_load_time st;
     loads_started := loads_started st ++ [device];
     next_handle := next_handle st |}.

(** A successful [from_pretrained] creates a new model object. *)
Definition fresh_handle (st : state) : handle * state :=
  (next_handle st,
   {| tts_model := tts_model st; vc_model := vc_model st;
      current_device := current_device st;
      model_load_time := model_load_time st;
      loads_started := loads_started st;
      next_handle := S (next_handle st) |}).

(** The test of line 96. *)
Definition needs_load (st : state) (device : string) : bool :=
  negb (String.eqb (current_device st) device)
  || is_none (tts_model st) || is_none (vc_model st).

Section WithEnvironment.

Variable env : environment.

(** [main.py], lines 81-107.  [now] is what [time.time()] reads at line
    101.  An exception of either [from_pretrained] is caught at line 105
    and leaves the assignments made before it. *)
Definition load_models (device : option string) (now : float) (st : state)
  : result bool * state :=
  if negb (CHATTERBOX_AVAILABLE env) then
    (Raise (HTTPException 500
       "ChatterBox models are not available. Please install the chatterbox package."),
     st)
  else
    let device :=
      match device with
      | Some d => d
      | None => get_default_device env
      end in
    if needs_load st device then
      let st := print_loading st device in
      if tts_from_pretrained_ok env device then
        let '(tts, st) := fresh_handle st in
        let st := set_tts_model st (Some tts) in
        if vc_from_pretrained_ok env device then
          let '(vc, st) := fresh_handle st in
          let st := set_vc_model st (Some vc) in
          let st := set_current_device st device in
          let st := set_model_load_time st (Some now) in
          (Ok true, st)
        else (Ok false, st)
      else (Ok false, st)
    else (Ok true, st).

(** [main.py], lines 109-135. *)
Definition unload_models (st : state) : state :=
  let st := if is_none (tts_model st) then st else set_tts_model st None in
  let st := if is_none (vc_model st) then st else set_vc_model st None in
  set_model_load_time st None.

(** [main.py], lines 137-146. *)
Definition ensure_tts_model_loaded (device : option string) (now : float)
  (st : state) : result (option handle) * state :=
  if is_none (tts_model st) then
    match load_models device now st with
    | (Ok true, st) => (Ok (tts_model st), st)
    | (Ok false, st) => (Raise (HTTPException 500 "Failed to load TTS model"), st)
    | (Raise e, st) => (Raise e, st)
    end
  else (Ok (tts_model st), st).

(** [main.py], lines 148-157. *)
Definition ensure_vc_model_loaded (device : option string) (now : float)
  (st : state) : result (option handle) * state :=
  if is_none (vc_model st) then
    match load_models device now st with
    | (Ok true, st) => (Ok (vc_model st), st)
    | (Ok false, st) => (Raise (HTTPException 500 "Failed to load VC model"), st)
    | (Raise e, st) => (Raise e, st)
    end
  else (Ok (vc_model st), st).

End WithEnvironment.

(** Python's truth value of [model_load_time]: [None] and [0.0] are false. *)
Definition truthy (t : option float) : bool :=
  match t with
  | None => false
  | Some t => negb (t =? 0)
  end.

(** The body of the timer thread of [auto_unload_models_after_delay],
    [main.py], lines 163-168, once its [time.sleep] has returned: [now] is
    what [time.time()] reads at line 167. *)
Definition unload_after_delay (delay_minutes : Z) (now : float) (st : state)
  : state :=
  match model_load_time st with
  | Some loaded_at =>
    if truthy (Some loaded_at)
       && (float_of_int (delay_minutes * 60) <=? now - loaded_at)
    then unload_models st
    else st
  | None => st
  end.

(** A load that runs to its end: both models are new, the device and the
    load time are recorded, one "Loading" line was printed. *)
Definition loaded_state (st : state) (device : string) (now : float) : state := {|
  tts_model := Some (next_handle st);
  vc_model := Some (S (next_handle st));
  current_device := device;
  model_load_time := Some now;
  loads_started := loads_started st ++ [device];
  next_handle := S (S (next_handle st))
|}.

End Models.

(** *** Concurrent callers

    The endpoints are plain [def] handlers, which FastAPI runs on a thread
    pool, and no lock guards the globals.  A call of
    [ensure_vc_model_loaded] is modelled as a thread that moves from one
    statement to the next, the threads of a pool taking turns in any
    order. *)

Module Threads.

Import Models.

(** Where a call of [ensure_vc_model_loaded] stands. *)
Inductive pc : Type :=
| AtEnsure                       (* line 152: [if vc_model is None] *)
| AtLoadTest                     (* lines 85-96, in [load_models] *)
| AtLoadTTS                      (* line 98 *)
| AtLoadVC                       (* line 99 *)
| AtLoadFinish                   (* lines 100-101 *)
| AtLoadReturn (success : bool)  (* lines 104 and 107, then line 154 *)
| AtEnsureReturn                 (* line 157: [return vc_model] *)
| Finished (r : result (option handle)).

Section WithEnvironment.

Variable env : environment.
Variable device : option string.

Definition requested_device : string :=
  match device with
  | Some d => d
  | None => get_default_device env
  end.

(** One statement of the call; [now] is the clock when it runs. *)
Definition thread_step (now : float) (p : pc) (st : state) : pc * state :=
  match p with
  | AtEnsure =>
    if is_none (vc_model st) then (AtLoadTest, st) else (AtEnsureReturn, st)
  | AtLoadTest =>
    if negb (CHATTERBOX_AVAILABLE env) then
      (Finished (Raise (HTTPException 500
         "ChatterBox models are not available. Please install the chatterbox package.")),
       st)
    else if needs_load st requested_device then
      (AtLoadTTS, print_loading st requested_device)
    else (AtLoadReturn true, st)
  | AtLoadTTS =>
    if tts_from_pretrained_ok env requested_device then
      let '(tts, st) := fresh_handle st in
      (AtLoadVC, set_tts_model st (Some tts))
    else (AtLoadReturn false, st)
  | AtLoadVC =>
    if vc_from_pretrained_ok env requested_device then
      let '(vc, st) := fresh_handle st in
      (AtLoadFinish, set_vc_model st (Some vc))
    else (AtLoadReturn false, st)
  | AtLoadFinish =>
    (AtLoadReturn true,
     set_model_load_time (set_current_device st requested_device) (Some now))
  | AtLoadReturn true => (AtEnsureReturn, st)
  | AtLoadReturn false =>
    (Finished (Raise (HTTPException 500 "Failed to load VC model")), st)
  | AtEnsureReturn => (Finished (Ok (vc_model st)), st)
  | Finished r => (Finished r, st)
  end.

(** [n] statements of one call, nothing else running in between. *)
Fixpoint thread_steps (n : nat) (now : float) (p : pc) (st : state) : pc * state :=
  match n with
  | O => (p, st)
  | S n => let '(p, st) := thread_step now p st in thread_steps n now p st
  end.

Fixpoint set_nth {A : Type} (i : nat) (x : A) (l : list A) : list A :=
  match l, i with
  | [], _ => []
  | _ :: l, O => x :: l
  | y :: l, S i => y :: set_nth i x l
  end.

(** A schedule names, turn by turn, the thread that runs its next
    statement and the clock at that turn. *)
Fixpoint run (schedule : list (nat * float)) (pool : list pc) (st : state)
  : list pc * state :=
  match schedule with
  | [] => (pool, st)
  | (i, now) :: schedule =>
    match nth_error pool i with
    | Some p =>
      let '(p, st) := thread_step now p st in
      run schedule (set_nth i p pool) st
    | None => run schedule pool st
    end
  end.

End WithEnvironment.

Definition finished (p : pc) : bool :=
  match p with
  | Finished _ => true
  | _ => false
  end.

End Threads.

(** [n] calls of [ensure_vc_model_loaded], one after the other, at the
    given clock readings. *)
Fixpoint ensure_calls (env : Models.environment) (device : option string)
  (times : list float) (st : Models.state)
  : list (result (option Models.handle)) * Models.state :=
  match times with
  | [] => ([], st)
  | now :: times =>
    let '(r, st) := Models.ensure_vc_model_loaded env device now st in
    let '(rs, st) := ensure_calls env device times st in
    (r :: rs, st)
  end.

(** ** Voice-sample validation *)

Module Voices.

Local Open Scope float_scope.

(** [str(n)] of an [int]. *)
Definition str_int (n : Z) : string := NilZero.string_of_int (Z.to_int n).

(** [str(e)] of an exception. *)
Definition str_exn (e : exn) : string :=
  match e with
  | ValueError msg => msg
  | ZeroDivisionError => "division by zero"
  | OverflowError msg => msg
  | TypeError msg => msg
  | LibraryError msg => msg
  | HTTPException status_code detail =>
    (str_int status_code ++ ": " ++ detail)%string
  end.

Section WithFiles.

(** The file system and the decoder, as the validation reads them. *)
Variable os_path_exists : string -> bool.
Variable os_path_getsize : string -> Z.
Variable librosa_load : string -> option Z -> result (ndarray * Z).

(** [main.py], lines 197-204; the handler's [return 0] is the float [0.0]
    in every comparison made of it. *)
Definition get_audio_duration_seconds (file_path : string) : float :=
  match ('(audio, sr) <- librosa_load file_path None ;;
         truediv (len audio) sr) with
  | Ok duration => duration
  | Raise _ => 0
  end.

(** [main.py], lines 206-225. *)
Definition validate_audio_file (file_path : string) (max_duration_minutes : Z)
  : bool * string :=
  if negb (os_path_exists file_path) then (false, "File does not exist"%string)
  else
    let file_size := os_path_getsize file_path in
    let max_size := (100 * 1024 * 1024)%Z in
    if (max_size <? file_size)%Z then
      (false,
       ("File too large. Maximum size is "
        ++ str_int (max_size / (1024 * 1024)) ++ "MB")%string)
    else
      let duration := get_audio_duration_seconds file_path in
      if float_of_int (max_duration_minutes * 60) <? duration then
        (false,
         ("Audio too long. Maximum duration is "
          ++ str_int max_duration_minutes ++ " minutes")%string)
      else if duration <? 1 then
        (false, "Audio too short. Minimum duration is 1 second"%string)
      else (true, "Valid"%string).

(** The record the endpoint returns, and what it does with the upload:
    write it to a temporary file of the given suffix (lines 1474-1476) and,
    once validated, store it and its database row (lines 1483-1506). *)
Variable VoiceSample : Type.
Variable save_upload : string -> result string.
Variable store_voice_sample : string -> result VoiceSample.

Definition allowed_extensions : list string :=
  [".wav"; ".mp3"; ".m4a"; ".flac"; ".ogg"]%string.

(** [main.py], lines 1453-1515; [file_ext] is
    [Path(audio_file.filename).suffix.lower()]. *)
Definition add_voice_sample (file_ext : string) : result VoiceSample :=
  if negb (existsb (String.eqb file_ext) allowed_extensions) then
    Raise (HTTPException 400
             ("Unsupported file type. Allowed: "
              ++ String.concat ", " allowed_extensions)%string)
  else
    match (temp_file_path <- save_upload file_ext ;;
           let '(is_valid, error_message) :=
             validate_audio_file temp_file_path 10 in
           if negb is_valid then Raise (HTTPException 400 error_message)
           else store_voice_sample temp_file_path) with
    | Ok voice_sample => Ok voice_sample
    | Raise e =>
      if is_http e then Raise e
      else Raise (HTTPException 500
                    ("Failed to save voice sample: " ++ str_exn e)%string)
    end.

End WithFiles.
End Voices.

(** ** Temporary files *)

Module Cleanup.

Local Open Scope float_scope.

(** What [os.unlink] does on one attempt. *)
Inductive unlink_outcome : Type :=
| Unlinked
| RaisedPermissionError
| RaisedFileNotFoundError
| RaisedOSError (msg : string).

(** What the file system answers on one attempt: whether the path exists
    when [os.path.exists] looks, and what [os.unlink] then does. *)
Record attempt_answers : Type := {
  path_exists : bool;
  unlink : unlink_outcome
}.

(** What the function does to the outside, in order. *)
Inductive event : Type :=
| Slept (seconds : float)
| UnlinkCalled.

(** [time.sleep(seconds)], which refuses a negative or NaN length. *)
Definition sleep (seconds : float) (trace : list event) : result (list event) :=
  if is_nan seconds || (seconds <? 0) then
    Raise (ValueError "sleep length must be non-negative")
  else Ok (trace ++ [Slept seconds]).

(** The loop of [safe_file_cleanup] over the attempts left, with what
    happened so far. *)
Fixpoint attempts_loop (answers : Z -> attempt_answers)
  (max_retries : Z) (delay : float) (attempts : list Z) (trace : list event)
  : result bool * list event :=
  match attempts with
  | [] => (Ok false, trace)
  | attempt :: attempts =>
    if path_exists (answers attempt) then
      match sleep delay trace with
      | Raise e => (Raise e, trace)
      | Ok trace =>
        let trace := trace ++ [UnlinkCalled] in
        match unlink (answers attempt) with
        | Unlinked => (Ok true, trace)
        | RaisedOSError msg => (Raise (LibraryError msg), trace)
        | RaisedPermissionError | RaisedFileNotFoundError =>
          if (attempt <? max_retries - 1)%Z then
            match sleep (delay * float_of_int (attempt + 1)) trace with
            | Raise e => (Raise e, trace)
            | Ok trace => attempts_loop answers max_retries delay attempts trace
            end
          else (Ok false, trace)
        end
      end
    else (Ok true, trace)
  end.

(** [main.py], lines 182-195; [app.py], lines 23-36 holds the same body.
    [answers] gives the file system's answers at each attempt; the result
    comes with the sleeps and unlink calls made. *)
Definition safe_file_cleanup (answers : Z -> attempt_answers)
  (max_retries : Z) (delay : float) : result bool * list event :=
  match range 0 max_retries 1 with
  | Ok attempts => attempts_loop answers max_retries delay attempts []
  | Raise e => (Raise e, [])
  end.

Definition is_unlink (e : event) : bool :=
  match e with
  | UnlinkCalled => true
  | Slept _ => false
  end.

(** An attempt that finds the file and fails to delete it with one of the
    two errors the function catches. *)
Definition locked (a : attempt_answers) : bool :=
  path_exists a
  && match unlink a with
     | RaisedPermissionError | RaisedFileNotFoundError => true
     | _ => false
     end.

End Cleanup.

(** ** Devices *)

Module Devices.

(** What torch reports: [torch.cuda.is_available()] and
    [torch.backends.mps.is_available()]. *)
Record torch_info : Type := {
  cuda_is_available : bool;
  mps_is_available : bool
}.

(** [main.py], lines 63-70 ([app.py], lines 92-99). *)
Definition get_available_devices (torch : torch_info) : list string :=
  let devices := ["cpu"%string] in
  let devices := if cuda_is_available torch then devices ++ ["cuda"%string] else devices in
  let devices := if mps_is_available torch then devices ++ ["mps"%string] else devices in
  devices.

(** [main.py], lines 72-79 ([app.py], lines 101-108). *)
Definition get_default_device (torch : torch_info) : string :=
  if cuda_is_available torch then "cuda"
  else if mps_is_available torch then "mps"
  else "cpu".

(** [repr] of a list of device names. *)
Definition repr_devices (devices : list string) : string :=
  ("[" ++ String.concat ", " (map (fun d => "'" ++ d ++ "'") devices) ++ "]")%string.

(** The installation as [load_models] sees it, with torch's default
    device. *)
Definition environment_of (torch : torch_info) (available : bool)
  (tts_ok vc_ok : string -> bool) : Models.environment := {|
  Models.CHATTERBOX_AVAILABLE := available;
  Models.get_default_device := get_default_device torch;
  Models.tts_from_pretrained_ok := tts_ok;
  Models.vc_from_pretrained_ok := vc_ok
|}.

(** [set_device], [main.py], lines 694-712: the response's message and
    [current_device]. *)
Definition set_device (torch : torch_info) (env : Models.environment)
  (device : string) (now : float) (st : Models.state)
  : result (string * string) * Models.state :=
  let available_devices := get_available_devices torch in
  if negb (existsb (String.eqb device) available_devices) then
    (Raise (HTTPException 400
       ("Device '" ++ device ++ "' not available. Available devices: "
        ++ repr_devices available_devices)%string), st)
  else
    match Models.load_models env (Some device) now st with
    | (Ok true, st) =>
      (Ok (("Device changed to " ++ device)%string, Models.current_device st), st)
    | (Ok false, st) =>
      (Raise (HTTPException 500
         ("Failed to load models on device '" ++ device ++ "'")%string), st)
    | (Raise e, st) => (Raise e, st)
    end.

(** [get_model_status], [main.py], lines 934-952: [now] is what
    [time.time()] reads. *)
Record model_status : Type := {
  tts_model_loaded : bool;
  vc_model_loaded : bool;
  both_models_loaded : bool;
  status_current_device : string;
  load_time : option float;
  idle_time : option float
}.

Definition get_model_status (now : float) (st : Models.state) : model_status :=
  let tts_loaded := negb (Models.is_none (Models.tts_model st)) in
  let vc_loaded := negb (Models.is_none (Models.vc_model st)) in
  {| tts_model_loaded := tts_loaded;
     vc_model_loaded := vc_loaded;
     both_models_loaded := tts_loaded && vc_loaded;
     status_current_device := Models.current_device st;
     load_time := Models.model_load_time st;
     idle_time :=
       match Models.model_load_time st with
       | Some loaded_at =>
         if Models.truthy (Some loaded_at) then Some (now - loaded_at)%float
         else None
       | None => None
       end |}.

End Devices.

(** A sleep length that [time.sleep] accepts. *)
Definition valid_sleep (seconds : float) : bool :=
  negb (is_nan seconds || (seconds <? 0)%float).

(** The sleeps and unlink calls of attempt [k] on a file that stays locked:
    the pause before the unlink and, unless the attempt is the last, the
    pause after its failure. *)
Definition locked_attempt_events (max_retries : Z) (delay : float) (k : Z)
  : list Cleanup.event :=
  [Cleanup.Slept delay; Cleanup.UnlinkCalled]
  ++ (if k <? max_retries - 1
      then [Cleanup.Slept (delay * float_of_int (k + 1))%float]
      else []).

(** ** Stored voice samples: the file name *)

Module Names.

(** A Python string, character by character; a character is its code
    point. *)
Definition char : Type := Z.
Definition pystr : Type := list char.

(** An ASCII literal. *)
Definition of_string (s : string) : pystr :=
  map (fun a => Z.of_N (N_of_ascii a)) (list_ascii_of_string s).

(** [s.lstrip()] and [s.rstrip()], given [str.isspace]. *)
Fixpoint lstrip (isspace : char -> bool) (s : pystr) : pystr :=
  match s with
  | [] => []
  | c :: s' => if isspace c then lstrip isspace s' else s
  end.

Definition rstrip (isspace : char -> bool) (s : pystr) : pystr :=
  rev (lstrip isspace (rev s)).

(** [s.split(sep)] on a one-character separator. *)
Fixpoint split_on (sep : char) (s : pystr) : list pystr :=
  match s with
  | [] => [[]]
  | c :: s' =>
    if c =? sep then [] :: split_on sep s'
    else
      match split_on sep s' with
      | piece :: pieces => (c :: piece) :: pieces
      | [] => [[c]]
      end
  end.

Section WithUnicode.

(** [str.isalnum] and [str.isspace] on one character. *)
Variable isalnum : char -> bool.
Variable isspace : char -> bool.

(** [c.isalnum() or c in (' ', '-', '_')], [main.py], line 236. *)
Definition kept (c : char) : bool :=
  isalnum c || existsb (Z.eqb c) (of_string " -_").

(** The [safe_name] of [save_voice_sample_file], line 236. *)
Definition safe_name (sample_name : pystr) : pystr :=
  rstrip isspace (filter kept sample_name).

(** The [file_extension] of line 235. *)
Definition file_extension (filename : pystr) : pystr :=
  if existsb (Z.eqb 46) filename
  then last (split_on 46 filename) []
  else of_string "wav".

(** The [filename] of line 237, from the upload's file name, the sample's
    name and [int(time.time())]. *)
Definition stored_filename (upload_filename sample_name : pystr)
  (timestamp : Z) : pystr :=
  safe_name sample_name ++ of_string "_"
  ++ of_string (Voices.str_int timestamp)
  ++ of_string "." ++ file_extension upload_filename.

End WithUnicode.
End Names.

(** ** The uploaded video: its suffix and its duration *)

Module Upload.

Local Open Scope float_scope.

(** [needle in haystack] on strings. *)
Fixpoint contains (needle haystack : string) : bool :=
  match haystack with
  | EmptyString => String.prefix needle EmptyString
  | String _ rest => String.prefix needle haystack || contains needle rest
  end.

(** Python's truth value of a string that may be [None]. *)
Definition nonempty (s : option string) : bool :=
  match s with
  | Some (String _ _) => true
  | _ => false
  end.

Definition known_suffixes : list string :=
  [".webm"; ".avi"; ".mov"; ".mkv"; ".mp4"]%string.

Section WithStrings.

(** [str.lower], and [Path(name).suffix.lower()]. *)
Variable lower : string -> string.
Variable suffix_lower : string -> string.

(** The suffix [video_voice_conversion] gives the temporary copy of the
    upload, [main.py], lines 1205-1222. *)
Definition upload_suffix (content_type filename : option string) : string :=
  let file_extension := ".mp4"%string in
  let file_extension :=
    match content_type with
    | Some ct =>
      if nonempty content_type then
        if contains "webm" (lower ct) then ".webm"%string
        else if contains "avi" (lower ct) then ".avi"%string
        else if contains "mov" (lower ct) then ".mov"%string
        else if contains "mkv" (lower ct) then ".mkv"%string
        else file_extension
      else file_extension
    | None => file_extension
    end in
  match filename with
  | Some name =>
    if nonempty filename then
      let filename_ext := suffix_lower name in
      if existsb (String.eqb filename_ext) known_suffixes then filename_ext
      else file_extension
    else file_extension
  | None => file_extension
  end.

End WithStrings.

(** The duration estimated for a WebM upload, lines 1230-1261.  [probe] is
    what the [try] block found: ffprobe's return code and the duration its
    JSON gives under [format], or the exception of the call, of the JSON
    parser or of [float]. *)
Definition estimated_duration (probe : result (Z * option float)) : float :=
  match probe with
  | Ok (returncode, format_duration) =>
    if (returncode =? 0)%Z then
      match format_duration with
      | Some duration => if duration <=? 0 then 60 else duration
      | None => 60
      end
    else 60
  | Raise _ => 60
  end.

(** The [video_duration] of lines 1270-1274: moviepy's, unless it is
    missing or not positive on a WebM upload. *)
Definition video_duration (file_extension : string)
  (clip_duration : option float) (estimate : float) : option float :=
  let unusable :=
    match clip_duration with
    | None => true
    | Some d => d <=? 0
    end in
  if unusable && String.eqb file_extension ".webm" then Some estimate
  else clip_duration.

End Upload.

(** ** Chunked or whole: the conversion endpoints *)

Module Conversion.

Local Open Scope float_scope.

(** [x > n] for a float [x] and an [int] [n]: Python compares the two
    exactly, without rounding [n] to a float. *)
Definition float_gt_int (x : float) (n : Z) : bool :=
  match Prim2SF x with
  | S754_nan => false
  | S754_infinity s => negb s
  | S754_zero _ => (n <? 0)%Z
  | S754_finite s m e =>
    let v := if s then Z.neg m else Z.pos m in
    if (0 <=? e)%Z then (n <? v * 2 ^ e)%Z else (n * 2 ^ (- e) <? v)%Z
  end.

(** [enable_chunking and audio_duration > chunk_duration], [main.py], lines
    995 and 1299. *)
Definition use_chunking (enable_chunking : bool) (audio_duration : float)
  (chunk_duration : Z) : bool :=
  enable_chunking && float_gt_int audio_duration chunk_duration.

Section WithIO.

Variable librosa_load : string -> option Z -> result (ndarray * Z).
Variable pitch_shift_fn : ndarray -> Z -> float -> result ndarray.
Variable time_stretch_fn : ndarray -> float -> result ndarray.
Variable save_temp_wav : ndarray -> Z -> result wav_file.

(** [vc_model.generate(audio=path, target_voice_path=...)] on the file the
    request uploaded. *)
Variable generate_from_path : string -> option string -> result ndarray.

(** The conversion of [voice_conversion_with_voice] and
    [video_voice_conversion], [main.py], lines 994-1033 and 1297-1337: from
    the audio file to the converted signal.  It runs inside the endpoint's
    [try]; what it raises, the endpoint's [except Exception] reports as a
    response of status 500. *)
Definition convert_audio (vc_model : VCModel) (audio_path : string)
  (target_voice_path : option string)
  (chunk_duration : Z) (enable_chunking : bool)
  (pitch_shift speed_factor volume_factor : float) : result ndarray :=
  let audio_duration :=
    Voices.get_audio_duration_seconds librosa_load audio_path in
  if use_chunking enable_chunking audio_duration chunk_duration then
    convert_in_chunks librosa_load
      (fun chunks sample_rate =>
         Main.process_audio_chunks pitch_shift_fn time_stretch_fn save_temp_wav
           vc_model chunks sample_rate target_voice_path
           pitch_shift speed_factor volume_factor)
      audio_path chunk_duration
  else
    wav <- generate_from_path audio_path target_voice_path ;;
    Ok (Effects.apply_audio_effects pitch_shift_fn time_stretch_fn
          wav (vc_sr vc_model) pitch_shift speed_factor volume_factor).

End WithIO.
End Conversion.

(** ** The Streamlit video worker *)

Module Preview.

(** The two lists the loop of [process_video_chunks_with_preview] builds:
    [converted_chunks], which the body and its handler both append to, and
    the [preview_audio] arrays it concatenates for the page. *)
Record progress : Type := {
  converted_chunks : list ndarray;
  previews : list ndarray
}.

Definition append_chunk (st : progress) (a : ndarray) : progress :=
  {| converted_chunks := converted_chunks st ++ [a]; previews := previews st |}.

Definition append_preview (st : progress) (a : ndarray) : progress :=
  {| converted_chunks := converted_chunks st; previews := previews st ++ [a] |}.

(** [i == 0 or (i + 1) % 3 == 0], [app.py], line 308. *)
Definition preview_due (i : nat) : bool :=
  (i =? 0)%nat || ((i + 1) mod 3 =? 0)%nat.

Section WithIO.

Variable save_temp_wav : ndarray -> Z -> result wav_file.

(** [status_text.text] and [progress_bar.progress] for chunk [i + 1] of
    [n], and [st.write] with [st.audio] for a preview: the Streamlit calls
    made inside the loop's [try].  ([st.error] in the handler is taken not
    to raise, and [safe_file_cleanup] as in [process_audio_chunks].) *)
Variable st_progress : nat -> nat -> result unit.
Variable st_audio : ndarray -> Z -> result unit.

(** One round of the loop, [app.py], lines 287-323: the [try] body and the
    handler that appends silence for the chunk, whatever the body had
    already appended. *)
Definition round (vc_model : VCModel) (target_voice_path : option string)
  (n : nat) (st : progress) (i : nat) (chunk : ndarray) : progress :=
  let handler st :=
    let silence := zeros_like chunk in
    append_chunk st silence in
  match st_progress (i + 1) n with
  | Raise _ => handler st
  | Ok _ =>
    match save_and_generate save_temp_wav vc_model 16000 target_voice_path
            chunk with
    | Raise _ => handler st
    | Ok converted_audio =>
      let st := append_chunk st converted_audio in
      if preview_due i then
        let preview_audio := np_concatenate (converted_chunks st) in
        let st := append_preview st preview_audio in
        match st_audio preview_audio (vc_sr vc_model) with
        | Ok _ => st
        | Raise _ => handler st
        end
      else st
    end
  end.

(** [for i, chunk in enumerate(audio_chunks)], from index [i] on. *)
Fixpoint rounds (vc_model : VCModel) (target_voice_path : option string)
  (n : nat) (st : progress) (i : nat) (audio_chunks : list ndarray)
  : progress :=
  match audio_chunks with
  | [] => st
  | chunk :: audio_chunks' =>
    rounds vc_model target_voice_path n
      (round vc_model target_voice_path n st i chunk) (S i) audio_chunks'
  end.

(** The loop of [process_video_chunks_with_preview], [app.py], lines
    281-323, from the empty [converted_chunks]. *)
Definition convert_with_preview (vc_model : VCModel)
  (audio_chunks : list ndarray) (target_voice_path : option string)
  : progress :=
  rounds vc_model target_voice_path (length audio_chunks)
    {| converted_chunks := []; previews := [] |} 0 audio_chunks.

(** Lines 325-327 and 371-373: the signal written for the new audio track,
    [None] when the loop left nothing. *)
Definition combined_audio (vc_model : VCModel)
  (audio_chunks : list ndarray) (target_voice_path : option string)
  : option ndarray :=
  let converted_chunks :=
    converted_chunks
      (convert_with_preview vc_model audio_chunks target_voice_path) in
  match converted_chunks with
  | [] => None
  | _ :: _ => Some (np_concatenate converted_chunks)
  end.

End WithIO.
End Preview.

(** ** The installation scripts *)

(** The shell the two scripts drive.  [subprocess.run] runs a command on a
    machine whose state it may change; the commands run are kept, with their
    return codes, in the order they were run. *)
Module Shell.

(** [subprocess.CompletedProcess], as far as the scripts read it. *)
Record CompletedProcess : Type := { returncode : Z; stdout : string }.

Section WithMachine.

Variable world : Type.

(** [subprocess.run(command, shell=True, capture_output=True, text=True)]. *)
Variable subprocess_run : string -> world -> CompletedProcess * world.

Record machine : Type := {
  state : world;
  history : list (string * Z)
}.

Definition run (command : string) (m : machine) : CompletedProcess * machine :=
  let (result, w) := subprocess_run command (state m) in
  (result,
   {| state := w;
      history := history m ++ [(command, returncode result)] |}).

(** [run_command] of both scripts ([setup_chatterbox.py], lines 10-22, and
    [install_cuda_pytorch.py], lines 9-26): with [check=True] a return code
    other than 0 raises [CalledProcessError], which the handler turns into
    [False]. *)
Definition run_command (command description : string) (m : machine)
  : bool * machine :=
  let (result, m) := run command m in
  (returncode result =? 0, m).

End WithMachine.

Arguments state {world} _.
Arguments history {world} _.

End Shell.

Module Setup.

Import Shell.

(** [sys.version_info]. *)
Record version_info : Type := { major : Z; minor : Z; micro : Z }.

(** [setup_chatterbox.py], lines 24-32. *)
Definition check_python_version (version : version_info) : bool :=
  if (major version <? 3) || ((major version =? 3) && (minor version <? 8))
  then false
  else true.

Definition dquote : string := String (ascii_of_nat 34) EmptyString.

Definition cuda_commands : list (string * string) :=
  [("pip install torch torchaudio --index-url https://download.pytorch.org/whl/cu121",
    "CUDA 12.1");
   ("pip install torch torchaudio --index-url https://download.pytorch.org/whl/cu118",
    "CUDA 11.8");
   ("pip install torch torchaudio", "CPU fallback")]%string.

Definition test_cmd : string :=
  ("python -c " ++ dquote
   ++ "import torch; print('CUDA available:', torch.cuda.is_available())"
   ++ dquote)%string.

Definition dependencies : list (string * string) :=
  [("pip install -r requirements.txt", "Installing base requirements");
   ("pip install librosa", "Installing librosa for audio processing");
   ("pip install sounddevice", "Installing sounddevice for audio I/O");
   ("pip install moviepy", "Installing moviepy for video processing");
   ("pip install opencv-python", "Installing OpenCV for video processing")]%string.

Definition chatterbox_commands : list string :=
  ["pip install chatterbox-tts";
   "pip install git+https://github.com/chatterbox/chatterbox.git"]%string.

Section WithMachine.

Variable world : Type.
Variable subprocess_run : string -> world -> CompletedProcess * world.

(** Whether [import torch] succeeds on the machine. *)
Variable torch_importable : world -> bool.

Let machine := Shell.machine world.
Let run := Shell.run world subprocess_run.
Let run_command := Shell.run_command world subprocess_run.

(** The loop over [cuda_commands], lines 67-81; [(false, _)] is the
    [return False] after it. *)
Fixpoint try_cuda_commands (commands : list (string * string)) (m : machine)
  : bool * machine :=
  match commands with
  | [] => (false, m)
  | (cmd, desc) :: commands' =>
    let (installed, m) :=
      run_command cmd ("Installing PyTorch (" ++ desc ++ ")")%string m in
    if installed then
      let (result, m) := run test_cmd m in
      if Upload.contains "CUDA available: True" (stdout result) then (true, m)
      else try_cuda_commands commands' m
    else try_cuda_commands commands' m
  end.

(** [setup_chatterbox.py], lines 34-89. *)
Definition install_pytorch (m : machine) : bool * machine :=
  if torch_importable (state m) then (true, m)
  else
    let (result, m) := run "nvidia-smi" m in
    let has_nvidia_gpu := returncode result =? 0 in
    if has_nvidia_gpu then try_cuda_commands cuda_commands m
    else
      run_command "pip install torch torchaudio"
        "Installing PyTorch (CPU version)" m.

(** [setup_chatterbox.py], lines 91-106. *)
Definition install_dependencies (m : machine) : bool * machine :=
  fold_left
    (fun '(success, m) '(cmd, desc) =>
       let (ok, m) := run_command cmd desc m in
       if negb ok then (false, m) else (success, m))
    dependencies (true, m).

(** The loop of [install_chatterbox], lines 124-126. *)
Fixpoint try_chatterbox_commands (commands : list string) (m : machine)
  : bool * machine :=
  match commands with
  | [] => (false, m)
  | cmd :: commands' =>
    let (ok, m) := run_command cmd ("Trying: " ++ cmd)%string m in
    if ok then (true, m) else try_chatterbox_commands commands' m
  end.

(** [setup_chatterbox.py], lines 108-129. *)
Definition install_chatterbox (m : machine) : bool * machine :=
  try_chatterbox_commands chatterbox_commands m.

(** [main], lines 167-194: the status of [sys.exit], or [None] when the
    script runs to its end.  [test_installation] runs no command and its
    result is not read. *)
Definition main (version : version_info) (m : machine)
  : option Z * machine :=
  if negb (check_python_version version) then (Some 1, m)
  else
    let (ok, m) := install_pytorch m in
    if negb ok then (Some 1, m)
    else
      let (_, m) := install_dependencies m in
      let (_, m) := install_chatterbox m in
      (None, m).

End WithMachine.
End Setup.

Module CudaInstall.

Import Shell.

(** An entry of [cuda_options], [install_cuda_pytorch.py], lines 85-101. *)
Record cuda_option : Type := {
  version : string;
  command : string;
  test_import : bool
}.

Definition cuda_options : list cuda_option :=
  [{| version := "CUDA 12.1";
      command := "pip install torch torchaudio --index-url https://download.pytorch.org/whl/cu121";
      test_import := true |};
   {| version := "CUDA 11.8";
      command := "pip install torch torchaudio --index-url https://download.pytorch.org/whl/cu118";
      test_import := true |};
   {| version := "CPU (fallback)";
      command := "pip install torch torchaudio";
      test_import := true |}]%string.

Section WithMachine.

Variable world : Type.
Variable subprocess_run : string -> world -> CompletedProcess * world.

(** [subprocess.run([sys.executable, "-c", test_script], ..., timeout=30)]:
    [None] when the call raises, [TimeoutExpired] or another exception. *)
Variable python_test : world -> option CompletedProcess * world.

Let machine := Shell.machine world.
Let run_command := Shell.run_command world subprocess_run.

(** The loop over [cuda_options], lines 103-151. *)
Fixpoint try_options (options : list cuda_option) (m : machine)
  : bool * machine :=
  match options with
  | [] => (false, m)
  | option :: options' =>
    let (installed, m) :=
      run_command (command option)
        ("Installing PyTorch with " ++ version option)%string m in
    if installed then
      if test_import option then
        let (outcome, w) := python_test (state m) in
        let m := {| state := w; history := history m |} in
        match outcome with
        | Some result =>
          if returncode result =? 0 then
            if Upload.contains "CUDA available: True" (stdout result)
            then (true, m)
            else if (version option =? "CPU (fallback)")%string then (true, m)
            else try_options options' m
          else try_options options' m
        | None => try_options options' m
        end
      else (true, m)
    else try_options options' m
  end.

(** [install_cuda_pytorch.py], lines 72-154; the one uninstall command of
    [uninstall_commands] is run first, whatever it returns. *)
Definition install_cuda_pytorch (m : machine) : bool * machine :=
  let (_, m) :=
    run_command "pip uninstall torch torchaudio torchvision -y"
      "Uninstalling existing PyTorch" m in
  try_options cuda_options m.

End WithMachine.
End CudaInstall.

(** ** Sample inputs

    Small concrete inputs on which the definitions above are run. *)

(** A five-sample signal cut at one second and two samples per second. *)
Definition demo_audio : ndarray := [0.5; -0.25; 0.125; 1; -1]%float.

Definition demo_load (path : string) (sr : option Z) : result (ndarray * Z) :=
  Ok (demo_audio, match sr with Some r => r | None => 2 end).

(** A model that fails on chunks starting with a negative sample and
    otherwise hands the samples back, and librosa effects that do the same. *)
Definition demo_vc : VCModel := {|
  generate := fun w _ =>
    match wav_samples w with
    | x :: _ =>
      if (x <? 0)%float then Raise (LibraryError "CUDA out of memory")
      else Ok (wav_samples w)
    | [] => Raise (LibraryError "empty input")
    end;
  vc_sr := 24000
|}.

Definition demo_save (chunk : ndarray) (sample_rate : Z) : result wav_file :=
  Ok {| wav_samples := chunk; wav_rate := sample_rate |}.

Definition demo_pitch (y : ndarray) (sr : Z) (n_steps : float) : result ndarray :=
  Ok y.

Definition demo_stretch (y : ndarray) (rate : float) : result ndarray := Ok y.

Definition demo_chunks : list ndarray :=
  [[0.5; -0.25]; [-1; 0.25; 0.5]; [0.125]]%float.

(** A decoder that recognises no file. *)
Definition failing_load (path : string) (sr : option Z) : result (ndarray * Z) :=
  Raise (LibraryError "Format not recognised").

(** An installation on which everything loads. *)
Definition demo_env : Models.environment := {|
  Models.CHATTERBOX_AVAILABLE := true;
  Models.get_default_device := "cuda";
  Models.tts_from_pretrained_ok := fun _ => true;
  Models.vc_from_pretrained_ok := fun _ => true
|}.

(** Two callers, the second arriving while the first is inside
    [load_models]: thread 0 tests and prints, thread 1 runs its whole call,
    thread 0 finishes its own load. *)
Definition racing_schedule : list (nat * float) :=
    [(0%nat, 1000%float); (0%nat, 1000%float);
     (1%nat, 1001%float); (1%nat, 1001%float); (1%nat, 1002%float);
     (1%nat, 1003%float); (1%nat, 1004%float); (1%nat, 1004%float);
     (1%nat, 1004%float);
     (0%nat, 1005%float); (0%nat, 1006%float); (0%nat, 1007%float);
     (0%nat, 1007%float); (0%nat, 1007%float)].

(** The models are loaded at 1000 s; a request arms the five-minute timer
    at 1010 s; a call at 1200 s is handed the loaded TTS model; the timer
    fires at 1310 s and unloads it. *)
Definition loaded_at_1000 : Models.state :=
  snd (Models.ensure_tts_model_loaded demo_env None 1000 Models.initial_state).

(** A file system with one existing file of 1000 bytes that decodes to
    five samples at two samples per second, 2.5 seconds. *)
Definition demo_exists (path : string) : bool := String.eqb path "voice.wav".
Definition demo_getsize (path : string) : Z := 1000.
Definition demo_decode (path : string) (sr : option Z) : result (ndarray * Z) :=
  if String.eqb path "voice.wav" then demo_load path sr
  else Raise (LibraryError "Format not recognised").
Definition demo_save_upload (file_ext : string) : result string :=
  Ok ("upload" ++ file_ext)%string.
Definition demo_store (path : string) : result string := Ok path.

(** A file that another process keeps open, and one that is released
    after the first attempt. *)
Definition stuck_file (attempt : Z) : Cleanup.attempt_answers :=
  {| Cleanup.path_exists := true; Cleanup.unlink := Cleanup.RaisedPermissionError |}.

Definition released_file (attempt : Z) : Cleanup.attempt_answers :=
  {| Cleanup.path_exists := true;
     Cleanup.unlink :=
       if attempt =? 0 then Cleanup.RaisedPermissionError else Cleanup.Unlinked |}.

(** A machine with a CUDA device, and one without accelerators. *)
Definition cuda_machine : Devices.torch_info :=
  {| Devices.cuda_is_available := true; Devices.mps_is_available := false |}.

Definition cpu_machine : Devices.torch_info :=
  {| Devices.cuda_is_available := false; Devices.mps_is_available := false |}.

(** An installation on which the voice-conversion model fails to load on
    CUDA. *)
Definition vc_fails_on_cuda : Models.environment := {|
  Models.CHATTERBOX_AVAILABLE := true;
  Models.get_default_device := "cuda";
  Models.tts_from_pretrained_ok := fun _ => true;
  Models.vc_from_pretrained_ok := fun d => negb (String.eqb d "cuda")
|}.

(** Both models loaded on the CPU at 1000 s. *)
Definition loaded_on_cpu : Models.state :=
  Models.loaded_state Models.initial_state "cpu" 1000.

(** [str.isalnum] and [str.isspace] on the ASCII characters. *)
Definition ascii_isalnum (c : Names.char) : bool :=
  ((48 <=? c) && (c <=? 57)) || ((65 <=? c) && (c <=? 90))
  || ((97 <=? c) && (c <=? 122)).

Definition ascii_isspace (c : Names.char) : bool :=
  ((9 <=? c) && (c <=? 13)) || ((28 <=? c) && (c <=? 32)).

(** A page on which the audio player fails. *)
Definition broken_player (preview_audio : ndarray) (sample_rate : Z)
  : result unit :=
  Raise (LibraryError "MediaFileStorageError").

Definition quiet_progress (i n : nat) : result unit := Ok tt.

(** A machine with a GPU on which every command succeeds, [import torch]
    fails, and no PyTorch build finds CUDA. *)
Definition obliging_shell (command : string) (w : unit)
  : Shell.CompletedProcess * unit :=
  ({| Shell.returncode := 0; Shell.stdout := "CUDA available: False" |}, w).

Definition obliging_test (w : unit) : option Shell.CompletedProcess * unit :=
  (Some {| Shell.returncode := 0; Shell.stdout := "CUDA available: False" |}, w).

Definition fresh_machine : Shell.machine unit :=
  {| Shell.state := tt; Shell.history := [] |}.

(** * Part II: properties *)

(** ** Order facts on binary64 numbers

    Python's float comparisons are IEEE 754's: every comparison with NaN is
    false, and the numbers other than NaN are totally ordered (with
    [-0.0 == 0.0]).  The facts below are read off the specification of the
    primitive operations. *)

Module FloatOrder.

Local Open Scope float_scope.

Lemma SFcompare_antisym (x y : spec_float) :
  SFcompare y x = option_map CompOpp (SFcompare x y).
Proof.
  destruct x as [sx|sx| |sx mx ex], y as [sy|sy| |sy my ey]; cbn;
    try reflexivity;
    try (destruct sx; reflexivity); try (destruct sy; reflexivity);
    try (destruct sx, sy; reflexivity).
  destruct sx, sy; cbn; try reflexivity;
    rewrite (Z.compare_antisym ex ey);
    destruct (Z.compare ex ey); cbn; try reflexivity;
    pose proof (Pos.compare_cont_antisym mx my Eq) as H; cbn [CompOpp] in H;
    rewrite <- H; now destruct (Pos.compare_cont Eq mx my).
Qed.

Lemma SFcompare_refl (x : spec_float) :
  x <> S754_nan -> SFcompare x x = Some Eq.
Proof.
  destruct x as [s|s| |s m e]; cbn; intros H; try congruence.
  - now destruct s.
  - rewrite Z.compare_refl.
    assert (Pos.compare_cont Eq m m = Eq) as -> by apply Pos.compare_refl.
    now destruct s.
Qed.

Lemma SFcompare_None (x y : spec_float) :
  SFcompare x y = None -> x = S754_nan \/ y = S754_nan.
Proof.
  destruct x as [sx|sx| |sx mx ex], y as [sy|sy| |sy my ey]; cbn;
    intros H; try discriminate; auto.
Qed.

Lemma is_nan_Prim2SF (x : float) :
  is_nan x = true <-> Prim2SF x = S754_nan.
Proof.
  unfold is_nan. rewrite eqb_spec. unfold SFeqb. split.
  - intros H. destruct (Prim2SF x) as [s|s| |s m e] eqn:E; try reflexivity;
      rewrite SFcompare_refl in H by discriminate; discriminate.
  - intros ->. reflexivity.
Qed.

Lemma not_nan_Prim2SF (x : float) :
  is_nan x = false <-> Prim2SF x <> S754_nan.
Proof.
  rewrite <- is_nan_Prim2SF. destruct (is_nan x); split; congruence.
Qed.

(** Among numbers, [not (x < y)] is [y <= x]. *)
Lemma ltb_false_leb (x y : float) :
  is_nan x = false -> is_nan y = false -> (x <? y) = false -> (y <=? x) = true.
Proof.
  rewrite !not_nan_Prim2SF, ltb_spec, leb_spec. unfold SFltb, SFleb.
  intros Hx Hy. rewrite (SFcompare_antisym (Prim2SF x) (Prim2SF y)).
  destruct (SFcompare (Prim2SF x) (Prim2SF y)) as [[]|] eqn:E; cbn;
    try congruence.
  apply SFcompare_None in E. tauto.
Qed.

Lemma leb_ltb_false (x y : float) : (y <=? x) = true -> (x <? y) = false.
Proof.
  rewrite ltb_spec, leb_spec. unfold SFltb, SFleb.
  rewrite (SFcompare_antisym (Prim2SF x) (Prim2SF y)).
  now destruct (SFcompare (Prim2SF x) (Prim2SF y)) as [[]|].
Qed.

Lemma ltb_true_leb_false (x y : float) :
  (x <? y) = true -> (y <=? x) = false.
Proof.
  intros H. destruct (y <=? x) eqn:E; [|reflexivity].
  apply leb_ltb_false in E. congruence.
Qed.

Lemma eqb_ltb_false (x y : float) :
  (x =? y) = true -> (x <? y) = false /\ (y <? x) = false.
Proof.
  rewrite eqb_spec, !ltb_spec. unfold SFeqb, SFltb.
  rewrite (SFcompare_antisym (Prim2SF x) (Prim2SF y)).
  now destruct (SFcompare (Prim2SF x) (Prim2SF y)) as [[]|].
Qed.

Lemma ltb_asym (x y : float) : (x <? y) = true -> (y <? x) = false.
Proof.
  rewrite !ltb_spec. unfold SFltb.
  rewrite (SFcompare_antisym (Prim2SF x) (Prim2SF y)).
  now destruct (SFcompare (Prim2SF x) (Prim2SF y)) as [[]|].
Qed.

(** [x - 0] is [x], whatever [x] is. *)
Lemma sub_zero_r (x : float) : x - 0 = x.
Proof.
  apply Prim2SF_inj. rewrite sub_spec.
  destruct (Prim2SF x) as [s|s| |s m e]; try reflexivity.
  now destruct s.
Qed.

End FloatOrder.

(** *** Facts on ranges and slices *)

Lemma firstn_then_window {A : Type} (a b : nat) (l : list A) :
  firstn a l ++ firstn b (skipn a l) = firstn (a + b) l.
Proof.
  revert l; induction a as [|a IH]; intros l; [reflexivity|].
  destruct l as [|x l]; simpl.
  - now rewrite firstn_nil.
  - now rewrite IH.
Qed.

Lemma slice_window {A : Type} (l : list A) (i c : Z) :
  0 <= i -> 0 < c ->
  slice l i (i + c) = firstn (Z.to_nat c) (skipn (Z.to_nat i) l).
Proof.
  intros Hi Hc. unfold slice, clamp_index.
  destruct (Z.ltb_spec i 0) as [?|_]; [lia|].
  destruct (Z.ltb_spec (i + c) 0) as [?|_]; [lia|].
  set (n := Z.of_nat (length l)).
  destruct (Z.le_gt_cases i n) as [Hin|Hin].
  - rewrite (Z.min_l i n) by lia.
    destruct (Z.le_gt_cases (i + c) n) as [Hic|Hic].
    + rewrite (Z.min_l (i + c) n) by lia. f_equal. lia.
    + rewrite (Z.min_r (i + c) n) by lia.
      rewrite !firstn_all2; [reflexivity| |]; rewrite length_skipn; subst n; lia.
  - rewrite (Z.min_r i n), (Z.min_r (i + c) n) by lia.
    rewrite !(skipn_all2 l) by (subst n; lia).
    now rewrite !firstn_nil.
Qed.

Lemma concat_windows {A : Type} (l : list A) (c m : nat) :
  concat (map (fun k => firstn c (skipn (k * c) l)) (seq 0 m))
  = firstn (m * c) l.
Proof.
  induction m as [|m IH]; [reflexivity|].
  rewrite seq_S, map_app, concat_app, IH. simpl.
  rewrite app_nil_r, firstn_then_window. f_equal. lia.
Qed.

(** The number of windows of [c] samples over [n] samples is [ceil (n / c)]. *)
Lemma range_len_windows (n c : Z) :
  0 <= n -> 0 < c ->
  let m := range_len 0 n c in
  0 <= m /\ n <= m * c /\ (0 < n -> (m - 1) * c < n) /\ (n = 0 -> m = 0).
Proof.
  intros Hn Hc m; subst m; unfold range_len.
  destruct (Z.ltb_spec 0 c) as [_|?]; [|lia].
  destruct (Z.ltb_spec 0 n) as [Hpos|Hzero]; cbn [andb].
  - rewrite Z.sub_0_r.
    pose proof (Z.div_mod (n - 1) c ltac:(lia)) as Hdm.
    pose proof (Z.mod_pos_bound (n - 1) c Hc) as Hmod.
    pose proof (Z.div_pos (n - 1) c ltac:(lia) Hc) as Hq.
    set (q := (n - 1) / c) in *. set (r := (n - 1) mod c) in *.
    assert (Hn1 : n = c * q + r + 1) by lia.
    assert (Hm : (1 + q) * c = c * q + c) by ring.
    assert (Hm' : (1 + q - 1) * c = c * q) by ring.
    rewrite Hm, Hm'. repeat split; lia.
  - destruct (Z.ltb_spec c 0) as [?|_]; [lia|]. cbn [andb]. repeat split; lia.
Qed.

(** *** Splitting is a partition into windows *)

Section SplitterFacts.

Variable librosa_load : string -> option Z -> result (ndarray * Z).

Let split := Splitter.split_audio_into_chunks librosa_load.

Lemma split_windows path dur sr audio sr' :
  0 < dur * sr ->
  librosa_load path (Some sr) = Ok (audio, sr') ->
  split path dur sr = Ok (windows audio (dur * sr), sr').
Proof.
  intros Hc Hload. unfold split, Splitter.split_audio_into_chunks.
  rewrite Hload. cbn [bind try_except]. unfold range.
  destruct (Z.eqb_spec (dur * sr) 0) as [?|_]; [lia|].
  cbn [bind try_except]. rewrite map_map. do 2 f_equal. unfold windows.
  apply map_ext. intros k. rewrite Z.add_0_l.
  rewrite slice_window by lia. do 2 f_equal. lia.
Qed.

Lemma windows_length audio c :
  length (windows audio c) = Z.to_nat (range_len 0 (len audio) c).
Proof. unfold windows. now rewrite length_map, length_seq. Qed.

Lemma windows_nth audio c i w :
  nth_error (windows audio c) i = Some w ->
  w = firstn (Z.to_nat c) (skipn (i * Z.to_nat c) audio).
Proof.
  unfold windows. rewrite nth_error_map. intros H.
  destruct (nth_error (seq 0 _) i) as [k|] eqn:Hk; [|discriminate].
  assert (Hlt : (i < length (seq 0 (Z.to_nat (range_len 0 (len audio) c))))%nat)
    by (apply nth_error_Some; congruence).
  rewrite length_seq in Hlt.
  rewrite (nth_error_nth' _ 0%nat) in Hk by (rewrite length_seq; exact Hlt).
  rewrite seq_nth in Hk by exact Hlt.
  injection Hk as <-. injection H as <-. reflexivity.
Qed.

Lemma windows_concat audio c :
  0 < c -> concat (windows audio c) = audio.
Proof.
  intros Hc. unfold windows. rewrite concat_windows.
  apply firstn_all2.
  pose proof (range_len_windows (len audio) c ltac:(unfold len; lia) Hc)
    as (H0 & Hcover & _).
  unfold len in *. nia.
Qed.

Lemma windows_nth_length audio c i w :
  0 < c ->
  nth_error (windows audio c) i = Some w ->
  ((S i < length (windows audio c))%nat -> len w = c)
  /\ (S i = length (windows audio c) ->
      0 < len w <= c /\ len w = len audio - Z.of_nat i * c).
Proof.
  intros Hc Hw.
  assert (Hi : (i < length (windows audio c))%nat)
    by (apply nth_error_Some; congruence).
  apply windows_nth in Hw. subst w.
  rewrite windows_length in *.
  pose proof (range_len_windows (len audio) c ltac:(unfold len; lia) Hc)
    as (Hm0 & Hcover & Hlast & Hempty).
  set (m := range_len 0 (len audio) c) in *.
  unfold len in *. rewrite length_firstn, length_skipn.
  assert (Hn : 0 < Z.of_nat (length audio)) by lia.
  specialize (Hlast Hn).
  split; intros Hpos.
  - assert (Z.of_nat (S i) * c <= (m - 1) * c) by nia. nia.
  - assert (Hm : m - 1 = Z.of_nat i) by lia. rewrite Hm in Hlast. nia.
Qed.

(** C1 -- for a decoded signal and a positive chunk duration (at the
    positive sample rate the signal was decoded at), the chunks of
    [split_audio_into_chunks] concatenate, in index order, to exactly the
    input samples; every chunk but the last has
    [chunk_duration_seconds * sample_rate] samples; the last one holds the
    remainder, non-empty and no longer than a full chunk; an empty signal
    gives no chunk. *)
Theorem split_audio_into_chunks_partition path dur sr audio sr' :
  0 < dur -> 0 < sr ->
  librosa_load path (Some sr) = Ok (audio, sr') ->
  exists chunks,
    Splitter.split_audio_into_chunks librosa_load path dur sr = Ok (chunks, sr')
    /\ concat chunks = audio
    /\ (forall i c, nth_error chunks i = Some c ->
          (S i < length chunks)%nat -> len c = dur * sr)
    /\ (forall i c, nth_error chunks i = Some c ->
          S i = length chunks ->
          0 < len c <= dur * sr
          /\ len c = len audio - Z.of_nat i * (dur * sr))
    /\ (audio = [] -> chunks = []).
Proof.
  intros Hdur Hsr Hload.
  assert (Hc : 0 < dur * sr) by nia.
  exists (windows audio (dur * sr)).
  split; [exact (split_windows _ _ _ _ _ Hc Hload)|].
  split; [exact (windows_concat _ _ Hc)|].
  split; [|split].
  - intros i c Hnth. exact (proj1 (windows_nth_length _ _ _ _ Hc Hnth)).
  - intros i c Hnth. exact (proj2 (windows_nth_length _ _ _ _ Hc Hnth)).
  - intros ->. apply length_zero_iff_nil. rewrite windows_length.
    pose proof (range_len_windows (len (@nil sample)) (dur * sr)
                  ltac:(reflexivity) Hc) as (_ & _ & _ & Hempty).
    now rewrite Hempty.
Qed.

End SplitterFacts.

Example split_demo :
  Splitter.split_audio_into_chunks demo_load "a.wav" 1 2
  = Ok ([[0.5; -0.25]; [0.125; 1]; [-1]]%float, 2).
Proof. vm_compute. reflexivity. Qed.

(** A chunk duration of zero makes [range] raise, which the handler turns
    into the empty result. *)
Example split_demo_zero_duration :
  Splitter.split_audio_into_chunks demo_load "a.wav" 0 2 = Ok ([], 2).
Proof. vm_compute. reflexivity. Qed.

Lemma split_audio_into_chunks_partition_witness :
  exists chunks,
    Splitter.split_audio_into_chunks demo_load "a.wav" 1 2 = Ok (chunks, 2)
    /\ concat chunks = demo_audio
    /\ (forall i c, nth_error chunks i = Some c ->
          (S i < length chunks)%nat -> len c = 1 * 2)
    /\ (forall i c, nth_error chunks i = Some c ->
          S i = length chunks ->
          0 < len c <= 1 * 2 /\ len c = len demo_audio - Z.of_nat i * (1 * 2))
    /\ (demo_audio = [] -> chunks = []).
Proof.
  apply (split_audio_into_chunks_partition demo_load "a.wav" 1 2 demo_audio 2);
    [lia | lia | reflexivity].
Defined.

(** The scenario of the specification: 150 seconds at 16000 Hz, cut at 60
    seconds, give chunks of 960000, 960000 and 480000 samples. *)
Example split_150_seconds librosa_load path (audio : ndarray) :
  librosa_load path (Some 16000) = Ok (audio, 16000) ->
  len audio = 150 * 16000 ->
  exists chunks,
    Splitter.split_audio_into_chunks librosa_load path 60 16000
    = Ok (chunks, 16000)
    /\ map len chunks = [960000; 960000; 480000].
Proof.
  intros Hload Hlen. exists (windows audio (60 * 16000)).
  split; [apply split_windows; [lia|exact Hload]|].
  unfold windows. rewrite Hlen.
  change (Z.to_nat (range_len 0 (150 * 16000) (60 * 16000))) with 3%nat.
  change (60 * 16000) with 960000.
  remember (Z.to_nat 960000) as c eqn:Hc.
  assert (Hc' : Z.of_nat c = 960000) by (subst c; apply Z2Nat.id; lia).
  clear Hc. unfold len in *. cbn [seq map].
  rewrite !length_firstn, !length_skipn.
  repeat f_equal; lia.
Qed.

(** *** One entry per chunk, silence where the conversion raised *)

Lemma for_each_try_append (convert : ndarray -> result ndarray) chunks acc :
  for_each
    (fun converted_chunks chunk =>
       try_except
         (converted_audio <- convert chunk ;;
          Ok (converted_chunks ++ [converted_audio]))
         (fun _ => Ok (converted_chunks ++ [zeros_like chunk])))
    chunks acc
  = Ok (acc ++ map (chunk_outcome convert) chunks).
Proof.
  revert acc; induction chunks as [|chunk chunks IH]; intros acc; cbn [for_each map].
  - now rewrite app_nil_r.
  - unfold chunk_outcome at 1.
    destruct (convert chunk) as [a|e]; cbn [bind try_except];
      rewrite IH, <- app_assoc; reflexivity.
Qed.

Lemma zeros_like_length (a : ndarray) : length (zeros_like a) = length a.
Proof. apply repeat_length. Qed.

Lemma zeros_like_all_zero (a : ndarray) :
  Forall (fun x => x = 0%float) (zeros_like a).
Proof. apply Forall_forall. intros x Hx. now apply repeat_spec in Hx. Qed.

Lemma concat_split_at {A : Type} (ls : list (list A)) (i : nat) (x : list A) :
  nth_error ls i = Some x ->
  concat ls = concat (firstn i ls) ++ x ++ concat (skipn (S i) ls).
Proof.
  revert i; induction ls as [|y ls IH]; intros [|i] H; try discriminate.
  - injection H as ->. reflexivity.
  - cbn [firstn skipn concat nth_error] in *.
    rewrite (IH _ H), <- app_assoc. reflexivity.
Qed.

Lemma concat_zeros (chunks : list ndarray) :
  concat (map zeros_like chunks)
  = repeat 0%float (length (concat chunks)).
Proof.
  induction chunks as [|c chunks IH]; [reflexivity|].
  cbn [map concat]. rewrite IH, length_app, repeat_app. reflexivity.
Qed.

Lemma outcome_at_failure convert chunks i chunk e :
  nth_error chunks i = Some chunk ->
  convert chunk = Raise e ->
  nth_error (map (chunk_outcome convert) chunks) i = Some (zeros_like chunk).
Proof.
  intros Hi He. rewrite nth_error_map, Hi. cbn. unfold chunk_outcome.
  now rewrite He.
Qed.

Lemma outcomes_all_failed convert chunks :
  (forall chunk, In chunk chunks -> exists e, convert chunk = Raise e) ->
  map (chunk_outcome convert) chunks = map zeros_like chunks.
Proof.
  intros H. apply map_ext_in. intros chunk Hin.
  destruct (H chunk Hin) as [e He]. unfold chunk_outcome. now rewrite He.
Qed.

(** The combiner on the loop's result: the concatenation, when there was a
    chunk at all. *)
Lemma combine_nonempty {A : Type} (f : A -> ndarray) (l : list A) :
  l <> [] ->
  match map f l with
  | [] => Ok None
  | _ :: _ => Ok (Some (np_concatenate (map f l)))
  end = Ok (Some (concat (map f l))).
Proof. destruct l; [congruence|reflexivity]. Qed.

Section WorkerFacts.

Variable pitch_shift_fn : ndarray -> Z -> float -> result ndarray.
Variable time_stretch_fn : ndarray -> float -> result ndarray.
Variable save_temp_wav : ndarray -> Z -> result wav_file.

Variable vc_model : VCModel.
Variable sample_rate : Z.
Variable target_voice_path : option string.
Variables pitch_shift speed_factor volume_factor : float.

Let main_convert :=
  Main.convert_chunk pitch_shift_fn time_stretch_fn save_temp_wav
    vc_model sample_rate target_voice_path
    pitch_shift speed_factor volume_factor.

Let app_convert :=
  App.convert_chunk save_temp_wav vc_model sample_rate target_voice_path.

Let conversion :=
  save_and_generate save_temp_wav vc_model sample_rate target_voice_path.

Lemma main_convert_chunks_eq chunks :
  Main.convert_chunks pitch_shift_fn time_stretch_fn save_temp_wav
    vc_model chunks sample_rate target_voice_path
    pitch_shift speed_factor volume_factor
  = Ok (map (chunk_outcome main_convert) chunks).
Proof. unfold Main.convert_chunks. now rewrite for_each_try_append. Qed.

Lemma app_convert_chunks_eq chunks :
  App.convert_chunks save_temp_wav vc_model chunks sample_rate target_voice_path
  = Ok (map (chunk_outcome app_convert) chunks).
Proof. unfold App.convert_chunks. now rewrite for_each_try_append. Qed.

Lemma main_convert_raises chunk e :
  conversion chunk = Raise e -> main_convert chunk = Raise e.
Proof.
  unfold conversion, save_and_generate, main_convert, Main.convert_chunk.
  destruct (save_temp_wav chunk sample_rate) as [tmp|e1]; cbn [bind]; [|easy].
  destruct (generate vc_model tmp target_voice_path); cbn [bind]; easy.
Qed.

Lemma app_convert_raises chunk e :
  conversion chunk = Raise e -> app_convert chunk = Raise e.
Proof.
  unfold conversion, save_and_generate, app_convert, App.convert_chunk.
  destruct (save_temp_wav chunk sample_rate) as [tmp|e1]; cbn [bind]; [|easy].
  destruct (generate vc_model tmp target_voice_path); cbn [bind]; easy.
Qed.


(** C8 -- on a non-empty list of chunks [process_audio_chunks] returns a
    combined signal (it neither raises nor returns [None]), whatever the
    conversions do; when every conversion raises, that signal is silence
    of the chunks' combined length.  Both copies behave so. *)
Theorem process_audio_chunks_always_combines chunks :
  chunks <> [] ->
  (exists combined,
      Main.process_audio_chunks pitch_shift_fn time_stretch_fn save_temp_wav
        vc_model chunks sample_rate target_voice_path
        pitch_shift speed_factor volume_factor = Ok (Some combined)
      /\ ((forall chunk, In chunk chunks ->
             exists e, conversion chunk = Raise e) ->
          combined = repeat 0%float (length (concat chunks))))
  /\ (exists combined,
      App.process_audio_chunks save_temp_wav vc_model chunks sample_rate
        target_voice_path = Ok (Some combined)
      /\ ((forall chunk, In chunk chunks ->
             exists e, conversion chunk = Raise e) ->
          combined = repeat 0%float (length (concat chunks)))).
Proof.
  intros Hne. split.
  - exists (concat (map (chunk_outcome main_convert) chunks)). split.
    + unfold Main.process_audio_chunks. rewrite main_convert_chunks_eq.
      cbn [bind]. now apply combine_nonempty.
    + intros Hall. rewrite outcomes_all_failed, concat_zeros; [reflexivity|].
      intros chunk Hin. destruct (Hall chunk Hin) as [e He].
      exists e. now apply main_convert_raises.
  - exists (concat (map (chunk_outcome app_convert) chunks)). split.
    + unfold App.process_audio_chunks. rewrite app_convert_chunks_eq.
      cbn [bind]. now apply combine_nonempty.
    + intros Hall. rewrite outcomes_all_failed, concat_zeros; [reflexivity|].
      intros chunk Hin. destruct (Hall chunk Hin) as [e He].
      exists e. now apply app_convert_raises.
Qed.

End WorkerFacts.

Example process_demo_chunks :
  Main.process_audio_chunks demo_pitch demo_stretch demo_save
    demo_vc demo_chunks 16000 None 0 1 1
  = Ok (Some [0.5; -0.25; 0; 0; 0; 0.125]%float).
Proof. vm_compute. reflexivity. Qed.

Example process_no_chunks :
  Main.process_audio_chunks demo_pitch demo_stretch demo_save
    demo_vc [] 16000 None 0 1 1 = Ok None.
Proof. reflexivity. Qed.


Lemma process_audio_chunks_always_combines_witness :
  exists combined,
    Main.process_audio_chunks demo_pitch demo_stretch demo_save
      demo_vc demo_chunks 16000 None 0 1 1 = Ok (Some combined).
Proof.
  destruct (process_audio_chunks_always_combines
              demo_pitch demo_stretch demo_save demo_vc 16000 None 0 1 1
              demo_chunks ltac:(discriminate))
    as ((combined & H & _) & _).
  exists combined. exact H.
Defined.

(** *** Effects: the no-op parameters and the clipping stage *)

Lemma clip1_unit_range (x : float) :
  is_nan (Effects.clip1 (-1)%float 1%float x) = true
  \/ Effects.in_unit_range (Effects.clip1 (-1)%float 1%float x) = true.
Proof.
  unfold Effects.clip1, Effects.np_maximum.
  destruct (is_nan x) eqn:Hnan.
  - left. unfold Effects.np_minimum. now rewrite Hnan.
  - right. change (is_nan (-1)%float) with false. cbn match.
    destruct (x <? -1)%float eqn:Hlo.
    + vm_compute. reflexivity.
    + unfold Effects.np_minimum. rewrite Hnan.
      change (is_nan 1%float) with false. cbn match.
      destruct (1 <? x)%float eqn:Hhi.
      * vm_compute. reflexivity.
      * unfold Effects.in_unit_range.
        rewrite (FloatOrder.ltb_false_leb x (-1)%float Hnan eq_refl Hlo).
        rewrite (FloatOrder.ltb_false_leb 1%float x eq_refl Hnan Hhi).
        reflexivity.
Qed.

Section EffectsFacts.

Variable pitch_shift_fn : ndarray -> Z -> float -> result ndarray.
Variable time_stretch_fn : ndarray -> float -> result ndarray.

(** C7 -- with pitch shift [0.0], speed [1.0] and volume [1.0],
    [apply_audio_effects] returns its input as it is.  Each stage is
    skipped at its own no-op value, whatever the other parameters are: a
    pitch shift of [0.0] never calls the pitch stage, a speed of [1.0]
    never calls the stretch stage, and a volume of [1.0] returns what the
    first two stages produced, neither scaled nor clipped. *)
Theorem apply_audio_effects_noop (audio_array : ndarray) (sample_rate : Z) :
  Effects.apply_audio_effects pitch_shift_fn time_stretch_fn
    audio_array sample_rate 0.0 1.0 1.0 = audio_array
  /\ (forall other_pitch_fn speed_factor volume_factor,
        Effects.apply_audio_effects pitch_shift_fn time_stretch_fn
          audio_array sample_rate 0.0 speed_factor volume_factor
        = Effects.apply_audio_effects other_pitch_fn time_stretch_fn
            audio_array sample_rate 0.0 speed_factor volume_factor)
  /\ (forall other_stretch_fn pitch_shift volume_factor,
        Effects.apply_audio_effects pitch_shift_fn time_stretch_fn
          audio_array sample_rate pitch_shift 1.0 volume_factor
        = Effects.apply_audio_effects pitch_shift_fn other_stretch_fn
            audio_array sample_rate pitch_shift 1.0 volume_factor)
  /\ (forall pitch_shift speed_factor shifted stretched,
        Effects.float_ne pitch_shift 0.0 = true ->
        Effects.float_ne speed_factor 1.0 = true ->
        pitch_shift_fn audio_array sample_rate pitch_shift = Ok shifted ->
        time_stretch_fn shifted speed_factor = Ok stretched ->
        Effects.apply_audio_effects pitch_shift_fn time_stretch_fn
          audio_array sample_rate pitch_shift speed_factor 1.0 = stretched).
Proof.
  split; [reflexivity|]. split; [reflexivity|]. split; [reflexivity|].
  intros pitch_shift speed_factor shifted stretched Hp Hs Hshift Hstretch.
  unfold Effects.apply_audio_effects. now rewrite Hp, Hshift, Hs, Hstretch.
Qed.


End EffectsFacts.

(** With the volume factor at [1.0] the clipping stage does not run: a
    sample of [2.0] comes back as it is. *)
Example effects_pass_loud_sample :
  Effects.apply_audio_effects demo_pitch demo_stretch [2.0]%float 16000 0.0 1.0 1.0
  = [2.0]%float.
Proof. reflexivity. Qed.

Example effects_clip_loud_sample :
  Effects.apply_audio_effects demo_pitch demo_stretch
    [0.5; -0.75; 0.25]%float 16000 0.0 1.0 4.0
  = [1.0; -1.0; 1.0]%float.
Proof. vm_compute. reflexivity. Qed.



(** *** A file that cannot be decoded *)

Section DecodeFailure.

Variable librosa_load : string -> option Z -> result (ndarray * Z).

(** [split_audio_into_chunks] never raises. *)
Lemma split_audio_into_chunks_total path dur sr :
  exists chunks sr',
    Splitter.split_audio_into_chunks librosa_load path dur sr = Ok (chunks, sr').
Proof.
  unfold Splitter.split_audio_into_chunks.
  destruct (librosa_load path (Some sr)) as [[audio sr']|e]; cbn [bind try_except].
  - destruct (range 0 (len audio) (dur * sr)) as [starts|e]; cbn [bind try_except];
      eauto.
  - eauto.
Qed.

(** C9, as the code has it -- for a file that cannot be decoded,
    [split_audio_into_chunks] catches the decoder's exception and returns
    the empty chunk list with the requested sample rate; the chunked branch
    of the endpoints, given the empty list, raises [HTTPException] 500,
    "Failed to split audio into chunks". *)
Theorem split_audio_into_chunks_undecodable path dur sr :
  (forall rate, exists e, librosa_load path rate = Raise e) ->
  Splitter.split_audio_into_chunks librosa_load path dur sr = Ok ([], sr)
  /\ (forall process,
        convert_in_chunks librosa_load process path dur
        = Raise (HTTPException 500 "Failed to split audio into chunks")).
Proof.
  intros Hfail.
  assert (Hsplit : forall rate,
             Splitter.split_audio_into_chunks librosa_load path dur rate
             = Ok ([], rate)).
  { intros rate. destruct (Hfail (Some rate)) as [e He].
    unfold Splitter.split_audio_into_chunks. now rewrite He. }
  split; [apply Hsplit|].
  intros process. unfold convert_in_chunks. now rewrite Hsplit.
Qed.

End DecodeFailure.

Example split_unreadable_file :
  Splitter.split_audio_into_chunks failing_load "noise.bin" 60 16000
  = Ok ([], 16000).
Proof. reflexivity. Qed.

Lemma split_audio_into_chunks_returns_empty :
  ~ (forall (librosa_load : string -> option Z -> result (ndarray * Z))
            (path : string) (dur sr : Z) (e : exn),
        librosa_load path (Some sr) = Raise e ->
        exists e',
          Splitter.split_audio_into_chunks librosa_load path dur sr = Raise e').
Proof.
  intros H.
  destruct (H failing_load "noise.bin"%string 60 16000
              (LibraryError "Format not recognised") eq_refl) as [e' He'].
  rewrite split_unreadable_file in He'. discriminate.
Qed.

Lemma split_audio_into_chunks_undecodable_witness :
  Splitter.split_audio_into_chunks failing_load "noise.bin" 60 16000
  = Ok ([], 16000)
  /\ (forall process,
        convert_in_chunks failing_load process "noise.bin" 60
        = Raise (HTTPException 500 "Failed to split audio into chunks")).
Proof.
  apply (split_audio_into_chunks_undecodable failing_load "noise.bin" 60 16000).
  intros rate. exists (LibraryError "Format not recognised"). reflexivity.
Defined.

(** *** Reconciling the converted track with the video *)


Example match_video_duration_truncates :
  Video.match_video_duration (Video.AudioFileClip 61.25) (Some 60%float)
  = Ok (Video.Subclipped (Video.AudioFileClip 61.25) 0 60).
Proof. reflexivity. Qed.

Example match_video_duration_pads :
  Video.match_video_duration (Video.AudioFileClip 12.3) (Some 45.6%float)
  = Ok (Video.Concatenated
          [Video.AudioFileClip 12.3; Video.SilenceClip (45.6 - 12.3)]).
Proof. reflexivity. Qed.

Example match_video_duration_pads_short :
  Video.clip_duration
    (Video.Concatenated
       [Video.AudioFileClip 12.3; Video.SilenceClip (45.6 - 12.3)])
  = 45.599999999999994%float.
Proof. reflexivity. Qed.


(** *** Lifecycle facts *)

Section LifecycleFacts.

Import Models.

Variable env : environment.

(** A call that finds its model loaded returns it and writes nothing: no
    global changes, the load time stamp included. *)
Lemma ensure_vc_loaded device now st h :
  vc_model st = Some h ->
  ensure_vc_model_loaded env device now st = (Ok (Some h), st).
Proof. intros H. unfold ensure_vc_model_loaded. now rewrite H. Qed.

Lemma ensure_tts_loaded device now st h :
  tts_model st = Some h ->
  ensure_tts_model_loaded env device now st = (Ok (Some h), st).
Proof. intros H. unfold ensure_tts_model_loaded. now rewrite H. Qed.

Hypothesis available : CHATTERBOX_AVAILABLE env = true.

Lemma load_models_fresh device now st :
  let d := Threads.requested_device env device in
  needs_load st d = true ->
  tts_from_pretrained_ok env d = true ->
  vc_from_pretrained_ok env d = true ->
  load_models env device now st = (Ok true, loaded_state st d now).
Proof.
  intros d Hneed Htts Hvc. unfold load_models. rewrite available. cbn [negb].
  fold (Threads.requested_device env device). fold d.
  rewrite Hneed, Htts, Hvc. reflexivity.
Qed.

Lemma ensure_vc_unloaded device now st :
  let d := Threads.requested_device env device in
  vc_model st = None ->
  tts_from_pretrained_ok env d = true ->
  vc_from_pretrained_ok env d = true ->
  ensure_vc_model_loaded env device now st
  = (Ok (Some (S (next_handle st))), loaded_state st d now).
Proof.
  intros d Hnone Htts Hvc. unfold ensure_vc_model_loaded.
  rewrite Hnone. cbn [is_none].
  rewrite load_models_fresh; [reflexivity | | assumption | assumption].
  unfold needs_load. rewrite Hnone. cbn. now rewrite !orb_true_r.
Qed.

Lemma ensure_tts_unloaded device now st :
  let d := Threads.requested_device env device in
  tts_model st = None ->
  tts_from_pretrained_ok env d = true ->
  vc_from_pretrained_ok env d = true ->
  ensure_tts_model_loaded env device now st
  = (Ok (Some (next_handle st)), loaded_state st d now).
Proof.
  intros d Hnone Htts Hvc. unfold ensure_tts_model_loaded.
  rewrite Hnone. cbn [is_none].
  rewrite load_models_fresh; [reflexivity | | assumption | assumption].
  unfold needs_load. rewrite Hnone. cbn. now rewrite orb_true_r.
Qed.

End LifecycleFacts.

(** The seven statements of a call, run without interruption, are the call. *)
Lemma thread_alone_is_call env device now st :
  Threads.thread_steps env device 7 now Threads.AtEnsure st
  = let '(r, st') := Models.ensure_vc_model_loaded env device now st in
    (Threads.Finished r, st').
Proof.
  unfold Models.ensure_vc_model_loaded, Models.load_models.
  fold (Threads.requested_device env device).
  cbn [Threads.thread_steps].
  destruct (Models.vc_model st) as [h|] eqn:Hvc;
    cbn [Models.is_none Threads.thread_step]; rewrite Hvc;
    cbn [Models.is_none Threads.thread_step]; [rewrite Hvc; reflexivity|].
  destruct (Models.CHATTERBOX_AVAILABLE env);
    cbn [negb Threads.thread_step]; [|reflexivity].
  destruct (Models.needs_load st _);
    cbn [Threads.thread_step]; [|rewrite Hvc; reflexivity].
  destruct (Models.tts_from_pretrained_ok env _);
    cbn [Threads.thread_step Models.fresh_handle]; [|reflexivity].
  destruct (Models.vc_from_pretrained_ok env _);
    cbn [Threads.thread_step Models.fresh_handle]; reflexivity.
Qed.

Lemma ensure_calls_loaded env device times st h :
  Models.vc_model st = Some h ->
  ensure_calls env device times st
  = (map (fun _ => Ok (Some h)) times, st).
Proof.
  intros Hvc. induction times as [|now times IH]; [reflexivity|].
  cbn [ensure_calls map].
  rewrite (ensure_vc_loaded env device now st h Hvc), IH. reflexivity.
Qed.



Example racing_callers :
  Threads.run demo_env None racing_schedule
    [Threads.AtEnsure; Threads.AtEnsure] Models.initial_state
  = ([Threads.Finished (Ok (Some 3%nat)); Threads.Finished (Ok (Some 1%nat))],
     {| Models.tts_model := Some 2%nat;
        Models.vc_model := Some 3%nat;
        Models.current_device := "cuda";
        Models.model_load_time := Some 1007%float;
        Models.loads_started := ["cuda"; "cuda"]%string;
        Models.next_handle := 4 |}).
Proof. vm_compute. reflexivity. Qed.


(** *** The idle timer *)

(** C5, as the code has it -- the timer compares the clock with
    [model_load_time], which only a completed load operation writes.  When
    it fires it unloads both models exactly when [model_load_time] is set
    (and not [0.0]) and at least [delay_minutes * 60] seconds old; a load
    completed less than that before the firing keeps the models; and a call
    of [ensure_tts_model_loaded] or [ensure_vc_model_loaded] that finds its
    model loaded returns it and leaves [model_load_time] as it was. *)
Theorem unload_after_delay_by_load_time
  (env : Models.environment) (device : option string)
  (delay_minutes : Z) (now : float) (st : Models.state) :
  (Models.unload_after_delay delay_minutes now st = Models.unload_models st
   /\ (exists loaded_at,
         Models.model_load_time st = Some loaded_at
         /\ (loaded_at =? 0)%float = false
         /\ (float_of_int (delay_minutes * 60) <=? now - loaded_at)%float = true)
   \/ Models.unload_after_delay delay_minutes now st = st
      /\ (forall loaded_at,
            Models.model_load_time st = Some loaded_at ->
            (loaded_at =? 0)%float = true
            \/ (float_of_int (delay_minutes * 60) <=? now - loaded_at)%float
               = false))
  /\ (forall st0 d loaded_at,
        st = Models.loaded_state st0 d loaded_at ->
        (now - loaded_at <? float_of_int (delay_minutes * 60))%float = true ->
        Models.unload_after_delay delay_minutes now st = st)
  /\ (forall h used,
        Models.tts_model st = Some h ->
        Models.ensure_tts_model_loaded env device used st = (Ok (Some h), st))
  /\ (forall h used,
        Models.vc_model st = Some h ->
        Models.ensure_vc_model_loaded env device used st = (Ok (Some h), st)).
Proof.
  split; [|split; [|split]].
  - unfold Models.unload_after_delay, Models.truthy.
    destruct (Models.model_load_time st) as [loaded_at|] eqn:Hload.
    + destruct (loaded_at =? 0)%float eqn:Hzero; cbn [negb andb].
      * right. split; [reflexivity|]. intros t [= <-]. now left.
      * destruct (float_of_int (delay_minutes * 60) <=? now - loaded_at)%float
          eqn:Hold.
        -- left. split; [reflexivity|]. now exists loaded_at.
        -- right. split; [reflexivity|]. intros t [= <-]. now right.
    + right. split; [reflexivity|]. intros t [=].
  - intros st0 d loaded_at -> Hrecent.
    unfold Models.unload_after_delay.
    cbn [Models.model_load_time Models.loaded_state].
    rewrite (FloatOrder.ltb_true_leb_false _ _ Hrecent). now rewrite andb_false_r.
  - intros h used. apply ensure_tts_loaded.
  - intros h used. apply ensure_vc_loaded.
Qed.

Example ensure_at_1200 :
  Models.ensure_tts_model_loaded demo_env None 1200 loaded_at_1000
  = (Ok (Some 0%nat), loaded_at_1000).
Proof. reflexivity. Qed.

Example timer_fires_at_1310 :
  Models.unload_after_delay 5 1310 loaded_at_1000
  = {| Models.tts_model := None;
       Models.vc_model := None;
       Models.current_device := "cuda";
       Models.model_load_time := None;
       Models.loads_started := ["cuda"%string];
       Models.next_handle := 2 |}.
Proof. vm_compute. reflexivity. Qed.

Lemma timer_unloads_recently_used_model :
  ~ (forall (env : Models.environment) (device : option string)
            (delay_minutes : Z) (armed used fired : float)
            (st st' : Models.state) (h : Models.handle),
        (float_of_int (delay_minutes * 60) <=? fired - armed)%float = true ->
        (armed <=? used)%float = true ->
        (used <=? fired)%float = true ->
        Models.ensure_tts_model_loaded env device used st = (Ok (Some h), st') ->
        Models.tts_model (Models.unload_after_delay delay_minutes fired st')
        = Some h).
Proof.
  intros H.
  specialize (H demo_env None 5 1010%float 1200%float 1310%float
                loaded_at_1000 loaded_at_1000 0%nat
                eq_refl eq_refl eq_refl ensure_at_1200).
  rewrite timer_fires_at_1310 in H. discriminate.
Qed.

(** *** What the validation accepts *)

Section ValidationFacts.

Variable os_path_exists : string -> bool.
Variable os_path_getsize : string -> Z.
Variable librosa_load : string -> option Z -> result (ndarray * Z).
Variable VoiceSample : Type.
Variable save_upload : string -> result string.
Variable store_voice_sample : string -> result VoiceSample.

Let duration_of := Voices.get_audio_duration_seconds librosa_load.
Let validate :=
  Voices.validate_audio_file os_path_exists os_path_getsize librosa_load.

Lemma duration_of_undecodable path e :
  librosa_load path None = Raise e -> duration_of path = 0%float.
Proof.
  intros H. unfold duration_of, Voices.get_audio_duration_seconds.
  now rewrite H.
Qed.

Lemma duration_of_number path : is_nan (duration_of path) = false.
Proof.
  unfold duration_of, Voices.get_audio_duration_seconds.
  destruct (librosa_load path None) as [[audio sr]|e]; cbn [bind]; [|reflexivity].
  unfold truediv. destruct (sr =? 0); [reflexivity|].
  destruct (is_finite _) eqn:Hfin; [|reflexivity].
  unfold is_finite in Hfin. apply negb_true_iff, orb_false_iff in Hfin.
  exact (proj1 Hfin).
Qed.

Lemma validate_accepts_iff path :
  fst (validate path 10) = true
  <-> os_path_exists path = true
      /\ os_path_getsize path <= 100 * 1024 * 1024
      /\ (1 <=? duration_of path)%float = true
      /\ (duration_of path <=? 600)%float = true.
Proof.
  pose proof (duration_of_number path) as Hnum.
  unfold validate, Voices.validate_audio_file. fold duration_of.
  change (float_of_int (10 * 60)) with 600%float.
  destruct (os_path_exists path); cbn [negb]; [|cbn; intuition congruence].
  destruct (Z.ltb_spec (100 * 1024 * 1024) (os_path_getsize path)) as [Hbig|Hok].
  { cbn [fst]. split; [discriminate|]. intros (_ & Hle & _). lia. }
  destruct (600 <? duration_of path)%float eqn:Hlong.
  { cbn [fst]. split; [discriminate|]. intros (_ & _ & _ & Hle).
    apply FloatOrder.leb_ltb_false in Hle. congruence. }
  destruct (duration_of path <? 1)%float eqn:Hshort.
  { cbn [fst]. split; [discriminate|]. intros (_ & _ & Hle & _).
    apply FloatOrder.leb_ltb_false in Hle. congruence. }
  cbn [fst]. split; [intros _|reflexivity].
  split; [reflexivity|]. split; [exact Hok|]. split.
  - now apply FloatOrder.ltb_false_leb.
  - now apply FloatOrder.ltb_false_leb.
Qed.


End ValidationFacts.

Example validate_demo_voice :
  Voices.validate_audio_file demo_exists demo_getsize demo_decode "voice.wav" 10
  = (true, "Valid"%string).
Proof. vm_compute. reflexivity. Qed.

Example validate_messages :
  Voices.validate_audio_file (fun _ => true) (fun _ => 104857601)
    demo_decode "voice.wav" 10
  = (false, "File too large. Maximum size is 100MB"%string)
  /\ Voices.validate_audio_file (fun _ => true) demo_getsize
       (fun _ _ => Ok (repeat 0%float 1202, 2)) "voice.wav" 10
     = (false, "Audio too long. Maximum duration is 10 minutes"%string)
  /\ Voices.validate_audio_file (fun _ => true) demo_getsize
       demo_decode "noise.bin" 10
     = (false, "Audio too short. Minimum duration is 1 second"%string).
Proof. repeat split; vm_compute; reflexivity. Qed.

Example add_unreadable_upload :
  Voices.add_voice_sample (fun _ => true) demo_getsize demo_decode string
    demo_save_upload demo_store ".wav"
  = Raise (HTTPException 400 "Audio too short. Minimum duration is 1 second").
Proof. vm_compute. reflexivity. Qed.

(** ** Deleting temporary files *)

Lemma range_from_zero (n : Z) :
  range 0 n 1 = Ok (map Z.of_nat (seq 0 (Z.to_nat n))).
Proof.
  unfold range. cbn [Z.eqb]. f_equal.
  assert (Hlen : range_len 0 n 1 = Z.max 0 n).
  { unfold range_len. cbn [Z.ltb Z.compare andb].
    destruct (Z.ltb_spec 0 n) as [Hpos|Hneg].
    - rewrite Z.div_1_r. lia.
    - lia. }
  rewrite Hlen. replace (Z.to_nat (Z.max 0 n)) with (Z.to_nat n) by lia.
  apply map_ext. intros k. lia.
Qed.

Section CleanupFacts.

Import Cleanup.

Variable answers : Z -> attempt_answers.
Variable max_retries : Z.
Variable delay : float.

Let loop := attempts_loop answers max_retries delay.

Lemma sleep_valid seconds trace :
  valid_sleep seconds = true -> sleep seconds trace = Ok (trace ++ [Slept seconds]).
Proof.
  unfold valid_sleep, sleep. intros H. apply negb_true_iff in H. now rewrite H.
Qed.

Lemma sleep_unlinks seconds trace trace' :
  sleep seconds trace = Ok trace' ->
  length (filter is_unlink trace') = length (filter is_unlink trace).
Proof.
  unfold sleep. destruct (_ || _); [discriminate|]. intros [= <-].
  rewrite filter_app. cbn. now rewrite app_nil_r.
Qed.

Lemma attempts_loop_unlinks attempts trace :
  (length (filter is_unlink (snd (loop attempts trace)))
   <= length (filter is_unlink trace) + length attempts)%nat.
Proof.
  revert trace. induction attempts as [|attempt attempts IH]; intros trace;
    cbn [loop attempts_loop snd length]; [lia|].
  unfold loop in *. cbn [attempts_loop].
  destruct (path_exists (answers attempt)); cbn [snd]; [|lia].
  destruct (sleep delay trace) as [trace1|e] eqn:Hs1; cbn [snd]; [|lia].
  apply sleep_unlinks in Hs1.
  assert (Hone : length (filter is_unlink (trace1 ++ [UnlinkCalled]))
                 = S (length (filter is_unlink trace))).
  { rewrite filter_app, length_app. cbn. lia. }
  destruct (unlink (answers attempt)); cbn [snd]; try lia;
    (destruct (attempt <? max_retries - 1); cbn [snd]; [|lia];
     destruct (sleep _ (trace1 ++ [UnlinkCalled])) as [trace2|e] eqn:Hs2;
     cbn [snd]; [|lia];
     apply sleep_unlinks in Hs2; specialize (IH trace2); lia).
Qed.

(** X1 -- [safe_file_cleanup] calls [os.unlink] at most [max_retries]
    times, whatever the file system answers and whatever the delay. *)
Theorem safe_file_cleanup_unlink_bound :
  (length (filter is_unlink (snd (safe_file_cleanup answers max_retries delay)))
   <= Z.to_nat max_retries)%nat.
Proof.
  unfold safe_file_cleanup. rewrite range_from_zero.
  pose proof (attempts_loop_unlinks
                (map Z.of_nat (seq 0 (Z.to_nat max_retries))) []) as H.
  unfold loop in H. rewrite length_map, length_seq in H. exact H.
Qed.

Hypothesis delay_valid : valid_sleep delay = true.
Hypothesis backoff_valid :
  forall k, 0 <= k < max_retries - 1 ->
    valid_sleep (delay * float_of_int (k + 1))%float = true.

Lemma locked_cases (a : attempt_answers) :
  locked a = true ->
  path_exists a = true
  /\ (unlink a = RaisedPermissionError \/ unlink a = RaisedFileNotFoundError).
Proof.
  unfold locked. destruct (path_exists a); [|discriminate].
  destruct (unlink a); cbn; intros H; try discriminate; auto.
Qed.

Lemma attempts_loop_locked n : forall a trace,
  (n = 0%nat \/ Z.of_nat (a + n) = max_retries) ->
  (forall k, (a <= k < a + n)%nat -> locked (answers (Z.of_nat k)) = true) ->
  loop (map Z.of_nat (seq a n)) trace
  = (Ok false,
     trace ++ flat_map (locked_attempt_events max_retries delay)
                (map Z.of_nat (seq a n))).
Proof.
  induction n as [|n IH]; intros a trace Hmax Hlocked.
  - cbn. now rewrite app_nil_r.
  - destruct Hmax as [Hmax|Hmax]; [discriminate|].
    cbn [seq map flat_map]. unfold loop in *. cbn [attempts_loop].
    destruct (locked_cases _ (Hlocked a ltac:(lia))) as [Hex Hun].
    rewrite Hex, (sleep_valid _ _ delay_valid).
    unfold locked_attempt_events at 1.
    assert (Hstep :
      (if Z.of_nat a <? max_retries - 1
       then
         match sleep (delay * float_of_int (Z.of_nat a + 1))
                 ((trace ++ [Slept delay]) ++ [UnlinkCalled]) with
         | Ok trace0 =>
           attempts_loop answers max_retries delay
             (map Z.of_nat (seq (S a) n)) trace0
         | Raise e => (Raise e, (trace ++ [Slept delay]) ++ [UnlinkCalled])
         end
       else (Ok false, (trace ++ [Slept delay]) ++ [UnlinkCalled]))
      = (Ok false,
         trace
         ++ ([Slept delay; UnlinkCalled]
             ++ (if Z.of_nat a <? max_retries - 1
                 then [Slept (delay * float_of_int (Z.of_nat a + 1))%float]
                 else []))
         ++ flat_map (locked_attempt_events max_retries delay)
              (map Z.of_nat (seq (S a) n)))).
    { destruct (Z.ltb_spec (Z.of_nat a) (max_retries - 1)) as [Hlt|Hge].
      - rewrite (sleep_valid _ _ (backoff_valid (Z.of_nat a) ltac:(lia))).
        rewrite (IH (S a)); [|right; lia|intros k Hk; apply Hlocked; lia].
        f_equal. now rewrite <- !app_assoc.
      - assert (n = 0%nat) as -> by lia. cbn.
        f_equal. now rewrite <- !app_assoc. }
    destruct Hun as [-> | ->]; exact Hstep.
Qed.

Lemma attempts_loop_gave_up n : forall a trace,
  (n = 0%nat \/ Z.of_nat (a + n) = max_retries) ->
  fst (loop (map Z.of_nat (seq a n)) trace) = Ok false ->
  forall k, (a <= k < a + n)%nat -> locked (answers (Z.of_nat k)) = true.
Proof.
  induction n as [|n IH]; intros a trace Hmax Hres k Hk; [lia|].
  destruct Hmax as [Hmax|Hmax]; [discriminate|].
  cbn [seq map] in Hres. unfold loop in *. cbn [attempts_loop] in Hres.
  assert (Hhead : locked (answers (Z.of_nat a)) = true
                  /\ ((Z.of_nat a <? max_retries - 1) = true ->
                      exists trace',
                        fst (attempts_loop answers max_retries delay
                               (map Z.of_nat (seq (S a) n)) trace') = Ok false)).
  { unfold locked.
    destruct (path_exists (answers (Z.of_nat a))); [|discriminate].
    rewrite (sleep_valid _ _ delay_valid) in Hres.
    destruct (unlink (answers (Z.of_nat a))); try discriminate;
      (split; [reflexivity|]; intros Hlt; rewrite Hlt in Hres;
       rewrite (sleep_valid _ _ (backoff_valid (Z.of_nat a) ltac:(lia))) in Hres;
       eauto). }
  destruct Hhead as [Ha Hrest].
  destruct (Nat.eq_dec k a) as [->|Hne]; [exact Ha|].
  assert (Hlt : (Z.of_nat a <? max_retries - 1) = true) by (apply Z.ltb_lt; lia).
  destruct (Hrest Hlt) as [trace' Hres'].
  apply (IH (S a) trace'); [right; lia|exact Hres'|lia].
Qed.



End CleanupFacts.

Example cleanup_released_file :
  Cleanup.safe_file_cleanup released_file 3 0.1
  = (Ok true,
     [Cleanup.Slept 0.1; Cleanup.UnlinkCalled; Cleanup.Slept 0.1;
      Cleanup.Slept 0.1; Cleanup.UnlinkCalled]%float).
Proof. vm_compute. reflexivity. Qed.

Lemma stuck_file_backoff_valid (k : Z) :
  0 <= k < 3 - 1 -> valid_sleep (0.1 * float_of_int (k + 1))%float = true.
Proof.
  intros Hk. assert (Hcases : k = 0 \/ k = 1) by lia.
  destruct Hcases as [-> | ->]; reflexivity.
Defined.



(** ** Devices and the loaded models *)

(** X4 -- the default device is always one of the available devices (and
    so is "cpu"), so [set_device] never answers a request for the default
    device with its 400 "not available". *)
Theorem default_device_is_available (torch : Devices.torch_info) :
  In (Devices.get_default_device torch) (Devices.get_available_devices torch)
  /\ In "cpu"%string (Devices.get_available_devices torch)
  /\ (forall env now st detail,
        fst (Devices.set_device torch env (Devices.get_default_device torch)
               now st)
        <> Raise (HTTPException 400 detail)).
Proof.
  assert (Hin : In (Devices.get_default_device torch)
                  (Devices.get_available_devices torch)).
  { unfold Devices.get_default_device, Devices.get_available_devices.
    destruct (Devices.cuda_is_available torch),
             (Devices.mps_is_available torch); cbn; auto. }
  split; [exact Hin|]. split.
  - unfold Devices.get_available_devices.
    destruct (Devices.cuda_is_available torch),
             (Devices.mps_is_available torch); cbn; auto.
  - intros env now st detail. unfold Devices.set_device.
    assert (Hex : existsb (String.eqb (Devices.get_default_device torch))
                    (Devices.get_available_devices torch) = true).
    { apply existsb_exists. eexists. split; [exact Hin|apply String.eqb_refl]. }
    rewrite Hex. cbn [negb].
    unfold Models.load_models.
    destruct (Models.CHATTERBOX_AVAILABLE env); cbn [negb fst];
      [|discriminate].
    destruct (Models.needs_load st _); [|discriminate].
    destruct (Models.tts_from_pretrained_ok env _); [|discriminate].
    cbn [Models.fresh_handle].
    destruct (Models.vc_from_pretrained_ok env _); discriminate.
Qed.

Section LoadFacts.

Import Models.

Variable env : environment.

(** What holds once [load_models] has returned [True]. *)
Lemma load_models_true device now st st' :
  load_models env device now st = (Ok true, st') ->
  needs_load st' (Threads.requested_device env device) = false.
Proof.
  unfold load_models. fold (Threads.requested_device env device).
  set (d := Threads.requested_device env device).
  destruct (CHATTERBOX_AVAILABLE env); cbn [negb]; [|discriminate].
  destruct (needs_load st d) eqn:Hneed; [|now intros [= <-]].
  destruct (tts_from_pretrained_ok env d); [|discriminate].
  cbn [fresh_handle].
  destruct (vc_from_pretrained_ok env d); [|discriminate].
  intros [= <-]. unfold needs_load. cbn. now rewrite String.eqb_refl.
Qed.

Lemma needs_load_false st d :
  needs_load st d = false ->
  current_device st = d /\ tts_model st <> None /\ vc_model st <> None.
Proof.
  unfold needs_load. intros H.
  apply orb_false_iff in H as [H Hvc]. apply orb_false_iff in H as [Hd Htts].
  apply negb_false_iff, String.eqb_eq in Hd.
  destruct (tts_model st), (vc_model st); try discriminate.
  repeat split; congruence.
Qed.

(** X5 -- once [load_models] has returned [True] for a device, calling it
    again for that device returns [True] and changes nothing: the models
    are not reloaded and [model_load_time] is not refreshed. *)
Theorem load_models_again_is_noop device now later st st' :
  load_models env device now st = (Ok true, st') ->
  load_models env device later st' = (Ok true, st').
Proof.
  intros Hload. pose proof (load_models_true _ _ _ _ Hload) as Hneed.
  unfold load_models in *. fold (Threads.requested_device env device) in *.
  destruct (CHATTERBOX_AVAILABLE env); cbn [negb] in *; [|discriminate].
  now rewrite Hneed.
Qed.

End LoadFacts.

(** X6 -- when [set_device] succeeds, the device was one of the available
    ones, it is the [current_device] the response reports and the globals
    hold, and both models are loaded. *)
Theorem set_device_success torch env device now st message reported st' :
  Devices.set_device torch env device now st = (Ok (message, reported), st') ->
  In device (Devices.get_available_devices torch)
  /\ reported = device
  /\ Models.current_device st' = device
  /\ Models.tts_model st' <> None
  /\ Models.vc_model st' <> None.
Proof.
  unfold Devices.set_device.
  destruct (existsb _ _) eqn:Hex; cbn [negb]; [|discriminate].
  apply existsb_exists in Hex as (d & Hin & Heq).
  apply String.eqb_eq in Heq. subst d.
  destruct (Models.load_models env (Some device) now st) as [[[]|e] st1] eqn:Hload;
    try discriminate.
  intros [= _ <- <-].
  apply load_models_true, needs_load_false in Hload.
  cbn [Threads.requested_device] in Hload.
  destruct Hload as (Hd & Htts & Hvc). repeat split; assumption.
Qed.

Lemma set_device_success_witness :
  In "cuda"%string (Devices.get_available_devices cuda_machine)
  /\ Models.current_device
       (snd (Devices.set_device cuda_machine demo_env "cuda" 2000 loaded_on_cpu))
     = "cuda"%string.
Proof.
  destruct (set_device_success cuda_machine demo_env "cuda" 2000%float
              loaded_on_cpu _ _ _ eq_refl) as (Hin & _ & Hdev & _).
  split; [exact Hin|exact Hdev].
Defined.

Lemma load_models_again_is_noop_witness :
  Models.load_models demo_env (Some "cuda"%string) 3000
    (snd (Models.load_models demo_env (Some "cuda"%string) 2000 loaded_on_cpu))
  = (Ok true,
     snd (Models.load_models demo_env (Some "cuda"%string) 2000 loaded_on_cpu)).
Proof.
  exact (load_models_again_is_noop demo_env (Some "cuda"%string)
           2000%float 3000%float loaded_on_cpu _ eq_refl).
Defined.

(** X7 -- a switch of device that fails half-way leaves the globals mixed,
    and the way back does not repair them.  With both models loaded on
    [old_device], [load_models] for another device on which the TTS model
    loads and the voice-conversion model does not returns [False], has
    replaced [tts_model] by the new object and left [vc_model],
    [current_device] and [model_load_time] as they were; [load_models] for
    [old_device] then returns [True] without loading anything. *)
Theorem failed_switch_leaves_mixed_models
  env old_device new_device now later st tts vc :
  Models.CHATTERBOX_AVAILABLE env = true ->
  Models.current_device st = old_device ->
  Models.tts_model st = Some tts ->
  Models.vc_model st = Some vc ->
  new_device <> old_device ->
  Models.tts_from_pretrained_ok env new_device = true ->
  Models.vc_from_pretrained_ok env new_device = false ->
  let st' := snd (Models.load_models env (Some new_device) now st) in
  fst (Models.load_models env (Some new_device) now st) = Ok false
  /\ Models.tts_model st' = Some (Models.next_handle st)
  /\ Models.vc_model st' = Some vc
  /\ Models.current_device st' = old_device
  /\ Models.model_load_time st' = Models.model_load_time st
  /\ Models.load_models env (Some old_device) later st' = (Ok true, st').
Proof.
  intros Havail Hdev Htts Hvc Hne Htts_ok Hvc_ok.
  assert (Hneed : Models.needs_load st new_device = true).
  { unfold Models.needs_load. rewrite Hdev.
    destruct (String.eqb_spec old_device new_device); [congruence|reflexivity]. }
  unfold Models.load_models. rewrite Havail. cbn [negb].
  rewrite Hneed, Htts_ok. cbn [Models.fresh_handle]. rewrite Hvc_ok.
  cbn [fst snd Models.tts_model Models.vc_model Models.current_device
       Models.model_load_time Models.set_tts_model Models.print_loading].
  repeat split; try assumption.
  unfold Models.needs_load. cbn. rewrite Hdev, String.eqb_refl, Hvc.
  reflexivity.
Qed.

Lemma failed_switch_leaves_mixed_models_witness :
  fst (Models.load_models vc_fails_on_cuda (Some "cuda"%string) 2000 loaded_on_cpu)
  = Ok false
  /\ Models.tts_model
       (snd (Models.load_models vc_fails_on_cuda (Some "cuda"%string) 2000
               loaded_on_cpu))
     = Some 2%nat
  /\ Models.current_device
       (snd (Models.load_models vc_fails_on_cuda (Some "cuda"%string) 2000
               loaded_on_cpu))
     = "cpu"%string.
Proof.
  destruct (failed_switch_leaves_mixed_models vc_fails_on_cuda
              "cpu" "cuda" 2000%float 3000%float loaded_on_cpu 0%nat 1%nat
              eq_refl eq_refl eq_refl eq_refl ltac:(discriminate)
              eq_refl eq_refl)
    as (Hres & Htts & _ & Hdev & _).
  split; [exact Hres|]. split; [exact Htts|exact Hdev].
Defined.

(** X8 -- [unload_models] may be called in any state and twice in a row:
    after it both models and the load time are [None] and the device is
    kept; a second call and any firing of the idle timer change nothing;
    and [get_model_status] reports nothing loaded and no idle time. *)
Theorem unload_models_idempotent (st : Models.state) :
  let unloaded := Models.unload_models st in
  Models.tts_model unloaded = None
  /\ Models.vc_model unloaded = None
  /\ Models.model_load_time unloaded = None
  /\ Models.current_device unloaded = Models.current_device st
  /\ Models.unload_models unloaded = unloaded
  /\ (forall delay_minutes now,
        Models.unload_after_delay delay_minutes now unloaded = unloaded)
  /\ (forall now,
        Devices.both_models_loaded (Devices.get_model_status now unloaded) = false
        /\ Devices.idle_time (Devices.get_model_status now unloaded) = None).
Proof.
  destruct st as [tts vc dev t log next].
  destruct tts, vc; cbn; repeat split; reflexivity.
Qed.

(** ** The stored file name *)

Section NameFacts.

Import Names.

Variable isalnum : char -> bool.
Variable isspace : char -> bool.

Lemma lstrip_suffix (s : pystr) :
  exists stripped, s = stripped ++ lstrip isspace s.
Proof.
  induction s as [|c s [stripped IH]]; cbn; [now exists []|].
  destruct (isspace c); [|now exists []].
  exists (c :: stripped). cbn. now rewrite <- IH.
Qed.

Lemma lstrip_idempotent (s : pystr) :
  lstrip isspace (lstrip isspace s) = lstrip isspace s.
Proof.
  induction s as [|c s IH]; cbn; [reflexivity|].
  destruct (isspace c) eqn:Hc; [exact IH|]. cbn. now rewrite Hc.
Qed.

Lemma lstrip_head (s : pystr) c s' :
  lstrip isspace s = c :: s' -> isspace c = false.
Proof.
  induction s as [|x s IH]; cbn; [discriminate|].
  destruct (isspace x) eqn:Hx; [exact IH|]. now intros [= <- _].
Qed.

Lemma rstrip_prefix (s : pystr) :
  exists stripped, s = rstrip isspace s ++ stripped.
Proof.
  unfold rstrip. destruct (lstrip_suffix (rev s)) as [stripped H].
  exists (rev stripped).
  rewrite <- rev_app_distr, <- H. now rewrite rev_involutive.
Qed.

(** X9 -- the [safe_name] that [save_voice_sample_file] builds keeps only
    alphanumeric characters, spaces, hyphens and underscores, does not end
    in white space, and is left as it is by a second sanitisation. *)
Theorem safe_name_sanitised (sample_name : pystr) :
  Forall (fun c => kept isalnum c = true) (safe_name isalnum isspace sample_name)
  /\ (forall c rest,
        rev (safe_name isalnum isspace sample_name) = c :: rest ->
        isspace c = false)
  /\ safe_name isalnum isspace (safe_name isalnum isspace sample_name)
     = safe_name isalnum isspace sample_name.
Proof.
  unfold safe_name.
  assert (Hkept : Forall (fun c => kept isalnum c = true)
                    (rstrip isspace (filter (kept isalnum) sample_name))).
  { destruct (rstrip_prefix (filter (kept isalnum) sample_name)) as [stripped H].
    assert (Hall : Forall (fun c => kept isalnum c = true)
                     (filter (kept isalnum) sample_name)).
    { apply Forall_forall. intros c Hc. now apply filter_In in Hc. }
    rewrite H in Hall. now apply Forall_app in Hall. }
  split; [exact Hkept|]. split.
  - intros c rest. unfold rstrip. rewrite rev_involutive. apply lstrip_head.
  - assert (Hfilter : filter (kept isalnum)
                        (rstrip isspace (filter (kept isalnum) sample_name))
                      = rstrip isspace (filter (kept isalnum) sample_name)).
    { apply forallb_filter_id, forallb_forall.
      intros c Hc. rewrite Forall_forall in Hkept. now apply Hkept. }
    rewrite Hfilter. unfold rstrip.
    now rewrite rev_involutive, lstrip_idempotent.
Qed.

End NameFacts.

Lemma split_on_no_sep (sep : Names.char) (s : Names.pystr) :
  ~ In sep s -> Names.split_on sep s = [s].
Proof.
  induction s as [|c s IH]; intros Hnot; [reflexivity|].
  cbn [Names.split_on].
  destruct (Z.eqb_spec c sep) as [->|Hne]; [exfalso; apply Hnot; now left|].
  rewrite IH; [reflexivity|]. intros Hin. apply Hnot. now right.
Qed.

Lemma split_on_with_sep (sep : Names.char) (s : Names.pystr) :
  In sep s ->
  exists piece other pieces, Names.split_on sep s = piece :: other :: pieces.
Proof.
  induction s as [|c s IH]; intros Hin; [destruct Hin|].
  cbn [Names.split_on].
  destruct (in_dec Z.eq_dec sep s) as [Hs|Hs].
  - destruct (IH Hs) as (piece & other & pieces & ->).
    destruct (c =? sep); eauto.
  - destruct Hin as [->|Hin]; [|contradiction].
    rewrite Z.eqb_refl, (split_on_no_sep _ _ Hs). eauto.
Qed.

Lemma last_split_on_cons (sep c : Names.char) (s : Names.pystr) :
  last (Names.split_on sep (c :: s)) []
  = if in_dec Z.eq_dec sep s then last (Names.split_on sep s) []
    else if c =? sep then s else c :: s.
Proof.
  cbn [Names.split_on].
  destruct (in_dec Z.eq_dec sep s) as [Hs|Hs].
  - destruct (split_on_with_sep _ _ Hs) as (piece & other & pieces & ->).
    destruct (c =? sep); reflexivity.
  - rewrite (split_on_no_sep _ _ Hs). destruct (c =? sep); reflexivity.
Qed.

Lemma last_split_on_no_sep (sep : Names.char) (s : Names.pystr) :
  ~ In sep (last (Names.split_on sep s) []).
Proof.
  induction s as [|c s IH]; [cbn; tauto|].
  rewrite last_split_on_cons.
  destruct (in_dec Z.eq_dec sep s) as [Hs|Hs]; [exact IH|].
  destruct (Z.eqb_spec c sep) as [->|Hne]; [exact Hs|].
  intros [Heq|Hin]; [congruence|contradiction].
Qed.

Lemma last_split_on_app (sep : Names.char) (stem ext : Names.pystr) :
  ~ In sep ext ->
  last (Names.split_on sep (stem ++ sep :: ext)) [] = ext.
Proof.
  intros Hext. induction stem as [|c stem IH].
  - cbn [app]. rewrite last_split_on_cons.
    destruct (in_dec Z.eq_dec sep ext); [contradiction|].
    now rewrite Z.eqb_refl.
  - cbn [app]. rewrite last_split_on_cons.
    destruct (in_dec Z.eq_dec sep (stem ++ sep :: ext)) as [_|Hnot];
      [exact IH|].
    exfalso. apply Hnot. apply in_or_app. right. now left.
Qed.

Section ExtensionFacts.

Import Names.

Variable isalnum : char -> bool.
Variable isspace : char -> bool.

Lemma file_extension_no_dot (filename : pystr) :
  ~ In 46 (file_extension filename).
Proof.
  unfold file_extension. destruct (existsb (Z.eqb 46) filename).
  - apply last_split_on_no_sep.
  - cbn. intros H. repeat (destruct H as [H|H]; [discriminate|]). exact H.
Qed.

(** X10 -- the extension [save_voice_sample_file] takes from the upload's
    file name is what follows its last dot ("wav" when it has no dot) and
    so holds no dot itself; the name the file is stored under ends in that
    same extension, whatever the sample's name and the time stamp are. *)
Theorem stored_filename_keeps_extension
  (upload_filename sample_name : pystr) (timestamp : Z) :
  ~ In 46 (file_extension upload_filename)
  /\ (forall stem ext,
        ~ In 46 ext ->
        upload_filename = stem ++ of_string "." ++ ext ->
        file_extension upload_filename = ext)
  /\ (~ In 46 upload_filename ->
      file_extension upload_filename = of_string "wav")
  /\ file_extension
       (stored_filename isalnum isspace upload_filename sample_name timestamp)
     = file_extension upload_filename.
Proof.
  split; [apply file_extension_no_dot|]. split; [|split].
  - intros stem ext Hext ->. unfold file_extension.
    assert (Hdot : existsb (Z.eqb 46) (stem ++ of_string "." ++ ext) = true).
    { apply existsb_exists. exists 46. split; [|reflexivity].
      apply in_or_app. right. now left. }
    rewrite Hdot. now apply last_split_on_app.
  - intros Hnot. unfold file_extension.
    destruct (existsb (Z.eqb 46) upload_filename) eqn:Hdot; [|reflexivity].
    apply existsb_exists in Hdot as (c & Hin & Hc).
    apply Z.eqb_eq in Hc. subst c. contradiction.
  - unfold stored_filename.
    set (ext := file_extension upload_filename).
    rewrite !app_assoc. rewrite <- (app_assoc _ (of_string ".") ext).
    unfold file_extension at 1.
    assert (Hdot : existsb (Z.eqb 46)
                     (((safe_name isalnum isspace sample_name ++ of_string "_")
                       ++ of_string (Voices.str_int timestamp))
                      ++ of_string "." ++ ext) = true).
    { apply existsb_exists. exists 46. split; [|reflexivity].
      apply in_or_app. right. now left. }
    rewrite Hdot. apply last_split_on_app. apply file_extension_no_dot.
Qed.

End ExtensionFacts.

Example stored_filename_demo :
  Names.stored_filename ascii_isalnum ascii_isspace
    (Names.of_string "My Take.final.MP3") (Names.of_string "../Bob's voice! ")
    1700000000
  = Names.of_string "Bobs voice_1700000000.MP3".
Proof. vm_compute. reflexivity. Qed.

(** ** The uploaded video *)

Section UploadFacts.

Variable lower : string -> string.
Variable suffix_lower : string -> string.

(** X11 -- the suffix given to the temporary copy of an uploaded video is
    always one of ".webm", ".avi", ".mov", ".mkv" and ".mp4"; when the
    upload's file name has one of these suffixes, that suffix is used,
    whatever the content type says. *)
Theorem upload_suffix_known (content_type filename : option string) :
  In (Upload.upload_suffix lower suffix_lower content_type filename)
    Upload.known_suffixes
  /\ (forall name,
        filename = Some name ->
        name <> EmptyString ->
        In (suffix_lower name) Upload.known_suffixes ->
        Upload.upload_suffix lower suffix_lower content_type filename
        = suffix_lower name).
Proof.
  split.
  - unfold Upload.upload_suffix.
    assert (Hct : In (match content_type with
                      | Some ct =>
                        if Upload.nonempty content_type then
                          if Upload.contains "webm" (lower ct) then ".webm"%string
                          else if Upload.contains "avi" (lower ct) then ".avi"%string
                          else if Upload.contains "mov" (lower ct) then ".mov"%string
                          else if Upload.contains "mkv" (lower ct) then ".mkv"%string
                          else ".mp4"%string
                        else ".mp4"%string
                      | None => ".mp4"%string
                      end) Upload.known_suffixes).
    { destruct content_type as [ct|]; [|cbn; tauto].
      destruct (Upload.nonempty (Some ct)); [|cbn; tauto].
      destruct (Upload.contains "webm" (lower ct)); [cbn; tauto|].
      destruct (Upload.contains "avi" (lower ct)); [cbn; tauto|].
      destruct (Upload.contains "mov" (lower ct)); [cbn; tauto|].
      destruct (Upload.contains "mkv" (lower ct)); cbn; tauto. }
    destruct filename as [name|]; [|exact Hct].
    destruct (Upload.nonempty (Some name)); [|exact Hct].
    destruct (existsb _ Upload.known_suffixes) eqn:Hknown; [|exact Hct].
    apply existsb_exists in Hknown as (s & Hin & Heq).
    apply String.eqb_eq in Heq. now subst s.
  - intros name -> Hname Hin. unfold Upload.upload_suffix.
    destruct name as [|c name]; [congruence|]. cbn [Upload.nonempty].
    assert (Hknown : existsb (String.eqb (suffix_lower (String c name)))
                       Upload.known_suffixes = true).
    { apply existsb_exists. eexists. split; [exact Hin|apply String.eqb_refl]. }
    now rewrite Hknown.
Qed.

End UploadFacts.

Example upload_suffix_demo :
  Upload.upload_suffix (fun s => s) (fun _ => ".mov"%string)
    (Some "video/webm"%string) (Some "clip.MOV"%string) = ".mov"%string
  /\ Upload.upload_suffix (fun s => s) (fun _ => ""%string)
       (Some "video/x-matroska; codecs=mkv"%string) (Some "clip"%string)
     = ".mkv"%string
  /\ Upload.upload_suffix (fun s => s) (fun _ => ".ogv"%string)
       (Some "video/ogg"%string) (Some "clip.ogv"%string) = ".mp4"%string.
Proof. repeat split; reflexivity. Qed.


(** ** Chunked or whole *)

Section ConversionFacts.

Variable librosa_load : string -> option Z -> result (ndarray * Z).
Variable pitch_shift_fn : ndarray -> Z -> float -> result ndarray.
Variable time_stretch_fn : ndarray -> float -> result ndarray.
Variable save_temp_wav : ndarray -> Z -> result wav_file.
Variable generate_from_path : string -> option string -> result ndarray.

Let convert :=
  Conversion.convert_audio librosa_load pitch_shift_fn time_stretch_fn
    save_temp_wav generate_from_path.

(** With a chunk size that is not positive the splitter returns no chunk,
    whatever the signal. *)
Lemma split_nonpositive_chunk_size path dur sr :
  dur * sr <= 0 ->
  exists sr',
    Splitter.split_audio_into_chunks librosa_load path dur sr = Ok ([], sr').
Proof.
  intros Hc. unfold Splitter.split_audio_into_chunks.
  destruct (librosa_load path (Some sr)) as [[audio sr']|e];
    cbn [bind try_except]; [|eauto].
  unfold range. destruct (Z.eqb_spec (dur * sr) 0) as [Hz|Hnz];
    cbn [bind try_except]; [eauto|].
  exists sr'. unfold range_len.
  destruct (Z.ltb_spec 0 (dur * sr)); [lia|]. cbn [andb].
  destruct (Z.ltb_spec (len audio) 0); [unfold len in *; lia|].
  now rewrite andb_false_r.
Qed.

(** X13 -- an upload that cannot be decoded never takes the chunked branch
    (for a chunk duration that is not negative): its duration is measured
    as 0, so the whole file is handed to the model in one piece and the
    splitter is not called. *)
Theorem undecodable_upload_is_not_chunked
  vc_model path target chunk_duration enable_chunking
  pitch_shift speed_factor volume_factor :
  (forall rate, exists e, librosa_load path rate = Raise e) ->
  0 <= chunk_duration ->
  Conversion.use_chunking enable_chunking
    (Voices.get_audio_duration_seconds librosa_load path) chunk_duration
  = false
  /\ convert vc_model path target chunk_duration enable_chunking
       pitch_shift speed_factor volume_factor
     = (wav <- generate_from_path path target ;;
        Ok (Effects.apply_audio_effects pitch_shift_fn time_stretch_fn
              wav (vc_sr vc_model) pitch_shift speed_factor volume_factor)).
Proof.
  intros Hfail Hc.
  assert (Hno : Conversion.use_chunking enable_chunking
                  (Voices.get_audio_duration_seconds librosa_load path)
                  chunk_duration = false).
  { unfold Conversion.use_chunking, Voices.get_audio_duration_seconds.
    destruct (Hfail None) as [e ->]. cbn [bind].
    change (Conversion.float_gt_int 0 chunk_duration)
      with (chunk_duration <? 0).
    destruct (Z.ltb_spec chunk_duration 0); [lia|]. apply andb_false_r. }
  split; [exact Hno|].
  unfold convert, Conversion.convert_audio. now rewrite Hno.
Qed.

(** X14 -- a chunk duration of zero or less makes every request that takes
    the chunked branch fail: the splitter returns no chunk and the branch
    raises [HTTPException] 500, "Failed to split audio into chunks", inside
    the endpoint's [try], without calling the model. *)
Theorem nonpositive_chunk_duration_fails
  vc_model path target chunk_duration enable_chunking
  pitch_shift speed_factor volume_factor :
  chunk_duration <= 0 ->
  Conversion.use_chunking enable_chunking
    (Voices.get_audio_duration_seconds librosa_load path) chunk_duration
  = true ->
  convert vc_model path target chunk_duration enable_chunking
    pitch_shift speed_factor volume_factor
  = Raise (HTTPException 500 "Failed to split audio into chunks").
Proof.
  intros Hc Huse. unfold convert, Conversion.convert_audio. rewrite Huse.
  unfold convert_in_chunks.
  destruct (split_nonpositive_chunk_size path chunk_duration 16000
              ltac:(lia)) as [sr' ->].
  reflexivity.
Qed.

End ConversionFacts.

Lemma undecodable_upload_is_not_chunked_witness :
  Conversion.convert_audio failing_load demo_pitch demo_stretch demo_save
    (fun _ _ => Raise (LibraryError "Format not recognised"))
    demo_vc "noise.bin" None 60 true 0 1 1
  = Raise (LibraryError "Format not recognised").
Proof.
  rewrite (proj2 (undecodable_upload_is_not_chunked
                    failing_load demo_pitch demo_stretch demo_save
                    (fun _ _ => Raise (LibraryError "Format not recognised"))
                    demo_vc "noise.bin" None 60 true 0%float 1%float 1%float
                    (fun rate => ex_intro _ (LibraryError "Format not recognised")
                                   eq_refl)
                    ltac:(lia))).
  reflexivity.
Defined.

Lemma nonpositive_chunk_duration_fails_witness :
  Conversion.convert_audio demo_load demo_pitch demo_stretch demo_save
    (fun _ _ => Ok demo_audio) demo_vc "a.wav" None 0 true 0 1 1
  = Raise (HTTPException 500 "Failed to split audio into chunks").
Proof.
  apply (nonpositive_chunk_duration_fails
           demo_load demo_pitch demo_stretch demo_save
           (fun _ _ => Ok demo_audio) demo_vc "a.wav" None 0 true
           0%float 1%float 1%float);
    [lia | reflexivity].
Defined.

(** ** The two copies of the chunk worker *)

Section WorkerCopies.

Variable pitch_shift_fn : ndarray -> Z -> float -> result ndarray.
Variable time_stretch_fn : ndarray -> float -> result ndarray.
Variable save_temp_wav : ndarray -> Z -> result wav_file.

Lemma convert_chunk_without_effects vc_model sample_rate target_voice_path chunk :
  Main.convert_chunk pitch_shift_fn time_stretch_fn save_temp_wav
    vc_model sample_rate target_voice_path 0 1 1 chunk
  = App.convert_chunk save_temp_wav vc_model sample_rate target_voice_path chunk.
Proof.
  unfold Main.convert_chunk, App.convert_chunk.
  destruct (save_temp_wav chunk sample_rate) as [tmp_file|e]; [|reflexivity].
  cbn [bind].
  destruct (generate vc_model tmp_file target_voice_path); reflexivity.
Qed.


End WorkerCopies.

(** ** The Streamlit video worker *)

Section PreviewFacts.

Variable save_temp_wav : ndarray -> Z -> result wav_file.
Variable st_progress : nat -> nat -> result unit.
Variable st_audio : ndarray -> Z -> result unit.
Variable vc_model : VCModel.
Variable target_voice_path : option string.

Let conversion :=
  save_and_generate save_temp_wav vc_model 16000 target_voice_path.
Let round := Preview.round save_temp_wav st_progress st_audio
               vc_model target_voice_path.
Let rounds := Preview.rounds save_temp_wav st_progress st_audio
                vc_model target_voice_path.

(** Every round appends to [converted_chunks]: one entry, or two. *)
Lemma round_appends n st i chunk :
  exists extra,
    Preview.converted_chunks (round n st i chunk)
    = Preview.converted_chunks st ++ extra
    /\ (1 <= length extra <= 2)%nat.
Proof.
  unfold round, Preview.round.
  destruct (st_progress (i + 1) n) as [[]|e];
    [|exists [zeros_like chunk]; cbn; split; [reflexivity|lia]].
  destruct (save_and_generate _ _ _ _ chunk) as [a|e];
    [|exists [zeros_like chunk]; cbn; split; [reflexivity|lia]].
  destruct (Preview.preview_due i);
    [|exists [a]; cbn; split; [reflexivity|lia]].
  destruct (st_audio _ _) as [[]|e].
  - exists [a]; cbn; split; [reflexivity|lia].
  - exists [a; zeros_like chunk]; cbn. rewrite <- app_assoc.
    split; [reflexivity|lia].
Qed.

Lemma rounds_appends n chunks : forall st i,
  exists extra,
    Preview.converted_chunks (rounds n st i chunks)
    = Preview.converted_chunks st ++ extra
    /\ (length chunks <= length extra)%nat.
Proof.
  induction chunks as [|chunk chunks IH]; intros st i; cbn [rounds Preview.rounds].
  - exists []. rewrite app_nil_r. split; [reflexivity|cbn; lia].
  - destruct (IH (round n st i chunk) (S i)) as (extra & Heq & Hlen).
    destruct (round_appends n st i chunk) as (first & Hfirst & Hone).
    exists (first ++ extra). unfold rounds, round in *.
    rewrite Heq, Hfirst, <- app_assoc. split; [reflexivity|].
    rewrite length_app. cbn [length]. lia.
Qed.

(** *** Previews are prefixes of the result *)

(** Every preview built so far is the concatenation of the first [k]
    entries of [converted_chunks]. *)
Definition previews_are_prefixes (st : Preview.progress) : Prop :=
  forall preview_audio, In preview_audio (Preview.previews st) ->
    exists k, (k <= length (Preview.converted_chunks st))%nat
      /\ preview_audio
         = np_concatenate (firstn k (Preview.converted_chunks st)).

Lemma append_chunk_keeps_prefixes st a :
  previews_are_prefixes st -> previews_are_prefixes (Preview.append_chunk st a).
Proof.
  intros Hinv p Hp. destruct (Hinv p Hp) as (k & Hk & ->).
  exists k. cbn [Preview.append_chunk Preview.converted_chunks].
  rewrite length_app, firstn_app.
  replace (k - length (Preview.converted_chunks st))%nat with 0%nat by lia.
  cbn [firstn]. rewrite app_nil_r. split; [lia|reflexivity].
Qed.

Lemma append_preview_keeps_prefixes st :
  previews_are_prefixes st ->
  previews_are_prefixes
    (Preview.append_preview st (np_concatenate (Preview.converted_chunks st))).
Proof.
  intros Hinv p Hp. cbn [Preview.append_preview Preview.previews] in Hp.
  cbn [Preview.append_preview Preview.converted_chunks].
  apply in_app_or in Hp. destruct Hp as [Hp|[<-|[]]]; [now apply Hinv|].
  exists (length (Preview.converted_chunks st)).
  rewrite firstn_all. split; [lia|reflexivity].
Qed.

Lemma round_keeps_prefixes n st i chunk :
  previews_are_prefixes st -> previews_are_prefixes (round n st i chunk).
Proof.
  intros Hinv. unfold round, Preview.round.
  destruct (st_progress (i + 1) n) as [[]|e];
    [|now apply append_chunk_keeps_prefixes].
  destruct (save_and_generate _ _ _ _ chunk) as [a|e];
    [|now apply append_chunk_keeps_prefixes].
  pose proof (append_chunk_keeps_prefixes st a Hinv) as Ha.
  destruct (Preview.preview_due i); [|exact Ha].
  pose proof (append_preview_keeps_prefixes _ Ha) as Hp.
  destruct (st_audio _ _) as [[]|e]; [exact Hp|].
  now apply append_chunk_keeps_prefixes.
Qed.

Lemma rounds_keep_prefixes n chunks : forall st i,
  previews_are_prefixes st -> previews_are_prefixes (rounds n st i chunks).
Proof.
  induction chunks as [|chunk chunks IH]; intros st i Hinv;
    cbn [rounds Preview.rounds]; [exact Hinv|].
  apply IH. now apply round_keeps_prefixes.
Qed.

(** X16 -- every preview that [process_video_chunks_with_preview] builds is
    the concatenation of a prefix of the [converted_chunks] the loop ends
    with: later rounds, failed ones included, only append. *)
Theorem previews_are_prefixes_of_result (audio_chunks : list ndarray) :
  let final :=
    Preview.convert_with_preview save_temp_wav st_progress st_audio
      vc_model audio_chunks target_voice_path in
  forall preview_audio, In preview_audio (Preview.previews final) ->
    exists k, (k <= length (Preview.converted_chunks final))%nat
      /\ preview_audio
         = np_concatenate (firstn k (Preview.converted_chunks final)).
Proof.
  cbv zeta. unfold Preview.convert_with_preview.
  apply (rounds_keep_prefixes (length audio_chunks) audio_chunks).
  intros p [].
Qed.

(** *** The same list as the audio worker, while the page works *)

Hypothesis progress_ok : forall i n, st_progress i n = Ok tt.

Lemma round_quiet n st i chunk :
  (forall a, st_audio a (vc_sr vc_model) = Ok tt) ->
  Preview.converted_chunks (round n st i chunk)
  = Preview.converted_chunks st ++ [chunk_outcome conversion chunk].
Proof.
  intros Haudio. unfold round, Preview.round, chunk_outcome, conversion.
  rewrite progress_ok.
  destruct (save_and_generate _ _ _ _ chunk) as [a|e]; [|reflexivity].
  destruct (Preview.preview_due i); [|reflexivity].
  now rewrite Haudio.
Qed.

Lemma rounds_quiet n chunks : forall st i,
  (forall a, st_audio a (vc_sr vc_model) = Ok tt) ->
  Preview.converted_chunks (rounds n st i chunks)
  = Preview.converted_chunks st ++ map (chunk_outcome conversion) chunks.
Proof.
  induction chunks as [|chunk chunks IH]; intros st i Haudio;
    cbn [rounds Preview.rounds map].
  - now rewrite app_nil_r.
  - pose proof (round_quiet n st i chunk Haudio) as Hround.
    unfold rounds, round in *. rewrite (IH _ _ Haudio), Hround.
    now rewrite <- app_assoc.
Qed.

(** X17 -- while the Streamlit calls of the loop do not raise, the video
    worker of [app.py] ends with exactly the list that [app.py]'s
    [process_audio_chunks] builds from the same chunks at 16000 Hz, and so
    writes the same combined signal. *)
Theorem video_worker_agrees_with_audio_worker (audio_chunks : list ndarray) :
  (forall a, st_audio a (vc_sr vc_model) = Ok tt) ->
  App.convert_chunks save_temp_wav vc_model audio_chunks 16000
    target_voice_path
  = Ok (Preview.converted_chunks
          (Preview.convert_with_preview save_temp_wav st_progress st_audio
             vc_model audio_chunks target_voice_path))
  /\ App.process_audio_chunks save_temp_wav vc_model audio_chunks 16000
       target_voice_path
     = Ok (Preview.combined_audio save_temp_wav st_progress st_audio
             vc_model audio_chunks target_voice_path).
Proof.
  intros Haudio.
  assert (Hlist :
    Preview.converted_chunks
      (Preview.convert_with_preview save_temp_wav st_progress st_audio
         vc_model audio_chunks target_voice_path)
    = map (chunk_outcome
             (App.convert_chunk save_temp_wav vc_model 16000
                target_voice_path)) audio_chunks).
  { unfold Preview.convert_with_preview.
    rewrite (rounds_quiet (length audio_chunks) audio_chunks _ 0%nat Haudio).
    cbn [Preview.converted_chunks app]. apply map_ext; intros chunk.
    unfold chunk_outcome, conversion, save_and_generate, App.convert_chunk.
    destruct (save_temp_wav chunk 16000) as [w|e]; [|reflexivity].
    cbn [bind]. destruct (generate vc_model w target_voice_path); reflexivity. }
  unfold App.process_audio_chunks, Preview.combined_audio.
  rewrite app_convert_chunks_eq, Hlist. split; [reflexivity|].
  cbn [bind]. cbv zeta. destruct (map _ audio_chunks); reflexivity.
Qed.

(** X18 -- a preview that fails after the converted chunk was appended
    makes the handler append silence for the same chunk: the chunk is in
    the result twice over, and the result has more entries than the input
    has chunks. *)
Theorem failed_preview_duplicates_chunk
  (chunk converted_audio : ndarray) (audio_chunks : list ndarray) (e : exn) :
  conversion chunk = Ok converted_audio ->
  st_audio (np_concatenate [converted_audio]) (vc_sr vc_model) = Raise e ->
  exists rest,
    Preview.converted_chunks
      (Preview.convert_with_preview save_temp_wav st_progress st_audio
         vc_model (chunk :: audio_chunks) target_voice_path)
    = converted_audio :: zeros_like chunk :: rest
    /\ (length audio_chunks <= length rest)%nat.
Proof.
  intros Hconv Hraise. unfold Preview.convert_with_preview.
  cbn [Preview.rounds].
  match goal with
  | |- context [Preview.rounds _ _ _ _ _ ?n ?st ?i audio_chunks] =>
    destruct (rounds_appends n audio_chunks st i) as (rest & Heq & Hlen);
    unfold rounds in Heq; rewrite Heq; clear Heq
  end.
  exists rest. split; [|exact Hlen].
  unfold Preview.round. rewrite progress_ok.
  unfold conversion in Hconv. rewrite Hconv.
  cbn [Preview.preview_due Nat.eqb orb Preview.append_chunk
       Preview.converted_chunks app].
  rewrite Hraise. reflexivity.
Qed.

End PreviewFacts.

Lemma previews_are_prefixes_of_result_witness :
  exists k,
    (k <= length
            (Preview.converted_chunks
               (Preview.convert_with_preview demo_save quiet_progress
                  (fun _ _ => Ok tt) demo_vc demo_chunks None)))%nat
    /\ np_concatenate [[0.5; -0.25]%float]
       = np_concatenate
           (firstn k
              (Preview.converted_chunks
                 (Preview.convert_with_preview demo_save quiet_progress
                    (fun _ _ => Ok tt) demo_vc demo_chunks None))).
Proof.
  apply (previews_are_prefixes_of_result
           demo_save quiet_progress (fun _ _ => Ok tt) demo_vc None
           demo_chunks (np_concatenate [[0.5; -0.25]%float])).
  left. reflexivity.
Defined.

Lemma video_worker_agrees_with_audio_worker_witness :
  App.process_audio_chunks demo_save demo_vc demo_chunks 16000 None
  = Ok (Some ([0.5; -0.25] ++ [0; 0; 0] ++ [0.125])%float).
Proof.
  rewrite (proj2 (video_worker_agrees_with_audio_worker
                    demo_save quiet_progress (fun _ _ => Ok tt) demo_vc None
                    (fun _ _ => eq_refl) demo_chunks (fun _ => eq_refl))).
  reflexivity.
Defined.

Lemma failed_preview_duplicates_chunk_witness :
  exists rest,
    Preview.converted_chunks
      (Preview.convert_with_preview demo_save quiet_progress broken_player
         demo_vc demo_chunks None)
    = [0.5; -0.25]%float :: zeros_like [0.5; -0.25]%float :: rest
    /\ (2 <= length rest)%nat.
Proof.
  apply (failed_preview_duplicates_chunk
           demo_save quiet_progress broken_player demo_vc None
           (fun _ _ => eq_refl)
           [0.5; -0.25]%float [0.5; -0.25]%float
           [[-1; 0.25; 0.5]; [0.125]]%float
           (LibraryError "MediaFileStorageError"));
    reflexivity.
Defined.

(** ** The installation scripts *)

Section SetupFacts.

Variable world : Type.
Variable subprocess_run : string -> world -> Shell.CompletedProcess * world.
Variable torch_importable : world -> bool.
Variable python_test : world -> option Shell.CompletedProcess * world.

Let run_command := Shell.run_command world subprocess_run.

Lemma run_command_history command description m :
  Shell.history (snd (run_command command description m))
  = Shell.history m
    ++ [(command,
         Shell.returncode (fst (subprocess_run command (Shell.state m))))]
  /\ fst (run_command command description m)
     = (Shell.returncode (fst (subprocess_run command (Shell.state m))) =? 0).
Proof.
  unfold run_command, Shell.run_command, Shell.run.
  destruct (subprocess_run command (Shell.state m)) as [result w].
  split; reflexivity.
Qed.

Let dependency_step :=
  fun '(success, m) '(cmd, desc) =>
    let (ok, m) := run_command cmd desc m in
    if negb ok then (false, m) else (success : bool, m).

Lemma dependency_loop (commands : list (string * string)) :
  forall success m,
  exists codes : list Z,
    length codes = length commands
    /\ Shell.history (snd (fold_left dependency_step commands (success, m)))
       = Shell.history m ++ combine (map fst commands) codes
    /\ fst (fold_left dependency_step commands (success, m))
       = success && forallb (Z.eqb 0) codes.
Proof.
  induction commands as [|[cmd desc] commands IH]; intros success m;
    cbn [fold_left].
  - exists []. cbn. now rewrite app_nil_r, andb_true_r.
  - cbn [dependency_step].
    destruct (run_command_history cmd desc m) as [Hhist Hok].
    destruct (run_command cmd desc m) as [ok m1]. cbn [fst snd] in Hhist, Hok.
    set (code := Shell.returncode (fst (subprocess_run cmd (Shell.state m))))
      in *.
    destruct (IH (if negb ok then false else success) m1)
      as (codes & Hlen & Hh & Hres).
    exists (code :: codes). cbn [length map combine fst forallb].
    split; [now rewrite Hlen|].
    replace (if negb ok then (false, m1) else (success, m1))
      with (if negb ok then false else success, m1)
      by now destruct ok.
    rewrite Hh, Hres, Hhist, <- app_assoc. split; [reflexivity|].
    rewrite Hok, Z.eqb_sym. destruct (0 =? code), success; reflexivity.
Qed.

(** X19 -- [install_dependencies] runs all five commands, in the order of
    the list, whatever any of them returns, and answers [True] exactly when
    every return code was 0. *)
Theorem install_dependencies_runs_every_command (m : Shell.machine world) :
  exists codes : list Z,
    length codes = 5%nat
    /\ Shell.history (snd (Setup.install_dependencies world subprocess_run m))
       = Shell.history m ++ combine (map fst Setup.dependencies) codes
    /\ fst (Setup.install_dependencies world subprocess_run m)
       = forallb (Z.eqb 0) codes.
Proof.
  destruct (dependency_loop Setup.dependencies true m)
    as (codes & Hlen & Hh & Hres).
  exists codes. split; [exact Hlen|]. split; [exact Hh|exact Hres].
Qed.

Lemma chatterbox_loop (commands : list string) : forall m,
  exists codes : list Z,
    (length codes <= length commands)%nat
    /\ Shell.history
         (snd (Setup.try_chatterbox_commands world subprocess_run commands m))
       = Shell.history m ++ combine commands codes
    /\ forallb (fun code => negb (code =? 0)) (removelast codes) = true
    /\ (if fst (Setup.try_chatterbox_commands world subprocess_run commands m)
        then last codes 1 = 0
        else length codes = length commands
             /\ forallb (fun code => negb (code =? 0)) codes = true).
Proof.
  induction commands as [|cmd commands IH]; intros m;
    cbn [Setup.try_chatterbox_commands].
  - exists []. cbn. rewrite app_nil_r. repeat split; lia.
  - destruct (run_command_history cmd ("Trying: " ++ cmd)%string m)
      as [Hhist Hok].
    unfold run_command in Hhist, Hok.
    destruct (Shell.run_command world subprocess_run cmd _ m) as [ok m1].
    cbn [fst snd] in Hhist, Hok.
    set (code := Shell.returncode (fst (subprocess_run cmd (Shell.state m))))
      in *.
    destruct ok.
    + exists [code]. cbn [length combine removelast forallb fst snd last].
      rewrite combine_nil.
      split; [lia|]. split; [exact Hhist|]. split; [reflexivity|].
      symmetry in Hok. now apply Z.eqb_eq in Hok.
    + destruct (IH m1) as (codes & Hlen & Hh & Hbefore & Hres).
      exists (code :: codes). cbn [length combine].
      split; [lia|]. rewrite Hh, Hhist, <- app_assoc.
      split; [reflexivity|].
      destruct (fst (Setup.try_chatterbox_commands world subprocess_run
                       commands m1)).
      * destruct codes as [|c codes]; [cbn in Hres; lia|].
        split; [|exact Hres].
        change (removelast (code :: c :: codes))
          with (code :: removelast (c :: codes)).
        cbn [forallb]. now rewrite <- Hok, Hbefore.
      * destruct Hres as [Hall Hnz].
        assert (Hcons : forallb (fun code => negb (code =? 0)) (code :: codes)
                        = true)
          by (cbn [forallb]; now rewrite <- Hok, Hnz).
        split; [|split; [now rewrite Hall|exact Hcons]].
        destruct codes as [|c codes]; [reflexivity|].
        change (removelast (code :: c :: codes))
          with (code :: removelast (c :: codes)).
        cbn [forallb]. now rewrite <- Hok, Hbefore.
Qed.

(** X20 -- [install_chatterbox] tries its commands in order and stops at
    the first that returns 0: every command run before the last one failed,
    [True] means the last one run succeeded, and [False] means both were
    run and both failed. *)
Theorem install_chatterbox_stops_at_first_success (m : Shell.machine world) :
  exists codes : list Z,
    (length codes <= 2)%nat
    /\ Shell.history (snd (Setup.install_chatterbox world subprocess_run m))
       = Shell.history m ++ combine Setup.chatterbox_commands codes
    /\ forallb (fun code => negb (code =? 0)) (removelast codes) = true
    /\ (if fst (Setup.install_chatterbox world subprocess_run m)
        then last codes 1 = 0
        else length codes = 2%nat
             /\ forallb (fun code => negb (code =? 0)) codes = true).
Proof.
  destruct (chatterbox_loop Setup.chatterbox_commands m)
    as (codes & Hlen & Hhistory & Hbefore & Hresult).
  exists codes. unfold Setup.install_chatterbox.
  split; [exact Hlen|]. split; [exact Hhistory|].
  split; [exact Hbefore|exact Hresult].
Qed.

(** *** The CPU fallback in the two scripts *)

Lemma try_cuda_commands_without_cuda (commands : list (string * string)) :
  (forall command w,
     Upload.contains "CUDA available: True"
       (Shell.stdout (fst (subprocess_run command w))) = false) ->
  forall m,
    fst (Setup.try_cuda_commands world subprocess_run commands m) = false.
Proof.
  intros Hno. induction commands as [|[cmd desc] commands IH]; intros m;
    cbn [Setup.try_cuda_commands]; [reflexivity|].
  destruct (Shell.run_command world subprocess_run cmd _ m) as [[] m1];
    [|apply IH].
  unfold Shell.run.
  pose proof (Hno Setup.test_cmd (Shell.state m1)) as Hout.
  destruct (subprocess_run Setup.test_cmd (Shell.state m1)) as [result w].
  cbn [fst] in Hout. rewrite Hout. apply IH.
Qed.

(** X21 -- on a machine where [nvidia-smi] succeeds, [install_pytorch] of
    [setup_chatterbox.py] answers [True] only through a test that printed
    "CUDA available: True": when no PyTorch build finds CUDA it answers
    [False], the "CPU fallback" having installed or not, and [main] exits
    with status 1. *)
Theorem setup_rejects_cpu_only_install_on_gpu_machine
  (m : Shell.machine world) (version : Setup.version_info) :
  torch_importable (Shell.state m) = false ->
  Shell.returncode (fst (subprocess_run "nvidia-smi" (Shell.state m))) = 0 ->
  (forall command w,
     Upload.contains "CUDA available: True"
       (Shell.stdout (fst (subprocess_run command w))) = false) ->
  fst (Setup.install_pytorch world subprocess_run torch_importable m) = false
  /\ fst (Setup.main world subprocess_run torch_importable version m) = Some 1.
Proof.
  intros Himport Hgpu Hno.
  assert (Hinstall :
    fst (Setup.install_pytorch world subprocess_run torch_importable m)
    = false).
  { unfold Setup.install_pytorch. rewrite Himport. unfold Shell.run at 1.
    destruct (subprocess_run "nvidia-smi" (Shell.state m)) as [result w].
    cbn [fst] in Hgpu. rewrite Hgpu. cbn [Z.eqb].
    now apply try_cuda_commands_without_cuda. }
  split; [exact Hinstall|].
  unfold Setup.main.
  destruct (Setup.check_python_version version); [|reflexivity].
  cbn [negb].
  destruct (Setup.install_pytorch world subprocess_run torch_importable m)
    as [ok m1].
  cbn [fst] in Hinstall. subst ok. reflexivity.
Qed.

Lemma try_options_reaches_fallback (options : list CudaInstall.cuda_option) :
  (forall command w,
     Shell.returncode (fst (subprocess_run command w)) = 0) ->
  (forall w, exists result,
     fst (python_test w) = Some result /\ Shell.returncode result = 0) ->
  existsb (fun option => CudaInstall.version option =? "CPU (fallback)")%string
    options = true ->
  forall m,
    fst (CudaInstall.try_options world subprocess_run python_test options m)
    = true.
Proof.
  intros Hinstall Htest.
  induction options as [|option options IH]; intros Hin m;
    cbn [CudaInstall.try_options existsb] in *; [discriminate|].
  destruct (run_command_history (CudaInstall.command option)
              ("Installing PyTorch with " ++ CudaInstall.version option)%string
              m) as [_ Hok].
  unfold run_command in Hok. rewrite Hinstall in Hok.
  destruct (Shell.run_command world subprocess_run _ _ m) as [ok m1].
  cbn [fst] in Hok. subst ok. cbn [Z.eqb].
  destruct (CudaInstall.test_import option); [|reflexivity].
  destruct (Htest (Shell.state m1)) as (result & Hsome & Hcode).
  destruct (python_test (Shell.state m1)) as [outcome w].
  cbn [fst] in Hsome. subst outcome. rewrite Hcode. cbn [Z.eqb].
  destruct (Upload.contains _ (Shell.stdout result)); [reflexivity|].
  destruct (CudaInstall.version option =? "CPU (fallback)")%string;
    [reflexivity|].
  apply IH. exact Hin.
Qed.

(** X22 -- [install_cuda_pytorch] of [install_cuda_pytorch.py] accepts the
    CPU fallback that [setup_chatterbox.py] rejects: when the installs
    succeed and the import test exits with 0, it answers [True] whether or
    not the test found CUDA. *)
Theorem cuda_installer_accepts_cpu_fallback (m : Shell.machine world) :
  (forall command w,
     Shell.returncode (fst (subprocess_run command w)) = 0) ->
  (forall w, exists result,
     fst (python_test w) = Some result /\ Shell.returncode result = 0) ->
  fst (CudaInstall.install_cuda_pytorch world subprocess_run python_test m)
  = true.
Proof.
  intros Hinstall Htest. unfold CudaInstall.install_cuda_pytorch.
  destruct (Shell.run_command world subprocess_run _ _ m) as [ignored m1].
  now apply try_options_reaches_fallback.
Qed.

End SetupFacts.

Example setup_on_obliging_machine :
  Setup.main unit obliging_shell (fun _ => false)
    {| Setup.major := 3; Setup.minor := 11; Setup.micro := 4 |} fresh_machine
  = (Some 1,
     {| Shell.state := tt;
        Shell.history :=
          [("nvidia-smi", 0);
           ("pip install torch torchaudio --index-url https://download.pytorch.org/whl/cu121", 0);
           (Setup.test_cmd, 0);
           ("pip install torch torchaudio --index-url https://download.pytorch.org/whl/cu118", 0);
           (Setup.test_cmd, 0);
           ("pip install torch torchaudio", 0);
           (Setup.test_cmd, 0)]%string |}).
Proof. reflexivity. Qed.

Lemma setup_rejects_cpu_only_install_on_gpu_machine_witness :
  fst (Setup.install_pytorch unit obliging_shell (fun _ => false) fresh_machine)
  = false
  /\ fst (Setup.main unit obliging_shell (fun _ => false)
            {| Setup.major := 3; Setup.minor := 11; Setup.micro := 4 |}
            fresh_machine)
     = Some 1.
Proof.
  apply (setup_rejects_cpu_only_install_on_gpu_machine
           unit obliging_shell (fun _ => false) fresh_machine
           {| Setup.major := 3; Setup.minor := 11; Setup.micro := 4 |});
    [reflexivity | reflexivity | intros command w; reflexivity].
Defined.

Lemma cuda_installer_accepts_cpu_fallback_witness :
  fst (CudaInstall.install_cuda_pytorch unit obliging_shell obliging_test
         fresh_machine)
  = true.
Proof.
  apply (cuda_installer_accepts_cpu_fallback
           unit obliging_shell obliging_test fresh_machine);
    [intros command w; reflexivity
    | intros w; eexists; split; reflexivity].
Defined.
